(** * exa-mcp-server: the start-up script [src/index.ts]

    A shallow embedding of the server's entry point: command-line tool
    selection, listing mode, the credential check, tool registration
    ([ExaServer.setupTools]) and the transport fallback ([ExaServer.run]).

    Effects are modelled by a small exception monad over a trace of
    observable events.  The protocol SDK (the session object and the two
    transports) is an external collaborator: its possible failures are
    fields of the record [Sdk], and every theorem quantifies over it. *)

From Stdlib Require Import ZArith String Ascii List Lia.
From stdpp Require Import base decidable option list sets gmap strings pretty.

(** ** JavaScript strings

    A string is a sequence of code units; the model keeps the code units
    below 256, one [ascii] each. *)

Module Js.

(** ECMAScript WhiteSpace and LineTerminator code points below 256:
    TAB, LF, VT, FF, CR, SP and NBSP. *)
Definition isWhiteSpace (c : ascii) : bool :=
  match nat_of_ascii c with
  | 9 | 10 | 11 | 12 | 13 | 32 | 160 => true
  | _ => false
  end.

Fixpoint trimStart (s : string) : string :=
  match s with
  | EmptyString => EmptyString
  | String c s' => if isWhiteSpace c then trimStart s' else s
  end.

Fixpoint trimEnd (s : string) : string :=
  match s with
  | EmptyString => EmptyString
  | String c s' =>
      match trimEnd s' with
      | EmptyString => if isWhiteSpace c then EmptyString else String c EmptyString
      | r => String c r
      end
  end.

(** [String.prototype.trim] *)
Definition trim (s : string) : string := trimEnd (trimStart s).

(** [String.prototype.split] with a one-character separator: the pieces
    between the separators, so a string with [n] separators gives [n + 1]
    pieces and the empty string gives one empty piece. *)
Fixpoint split (sep : ascii) (s : string) : list string :=
  match s with
  | EmptyString => [EmptyString]
  | String c s' =>
      if Ascii.eqb c sep then EmptyString :: split sep s'
      else match split sep s' with
           | piece :: pieces => String c piece :: pieces
           | [] => [String c EmptyString]
           end
  end.

(** [Array.prototype.join] *)
Definition join (sep : string) (l : list string) : string := String.concat sep l.

(** Truthiness of a string: every string but the empty one. *)
Definition truthy (s : string) : bool :=
  match s with EmptyString => false | String _ _ => true end.

(** A number as [parseInt] produces it: [NaN] or an integer.  The integer
    is kept exact (a double is exact up to 2^53). *)
Inductive number : Type :=
  | NaN
  | Int (z : Z).

(** The value of a decimal digit: the code units 48 to 57. *)
Definition digit (c : ascii) : option Z :=
  let code := Z.of_nat (nat_of_ascii c) in
  if ((48 <=? code) && (code <=? 57))%Z then Some (code - 48)%Z else None.

(** The value of the longest prefix of decimal digits, [None] when that
    prefix is empty. *)
Fixpoint digits (acc : option Z) (s : string) : option Z :=
  match s with
  | EmptyString => acc
  | String c s' =>
      match digit c with
      | Some d => digits (Some (10 * default 0%Z acc + d)%Z) s'
      | None => acc
      end
  end.

(** [parseInt(s, 10)]: leading white space is skipped, one sign is read,
    then the longest prefix of digits; no digit gives [NaN]. *)
Definition parseInt10 (s : string) : number :=
  match trimStart s with
  | String "-" r => match digits None r with Some n => Int (- n) | None => NaN end
  | String "+" r => match digits None r with Some n => Int n | None => NaN end
  | r => match digits None r with Some n => Int n | None => NaN end
  end.

(** A number inside a template literal. *)
Definition numberToString (n : number) : string :=
  match n with
  | NaN => "NaN"
  | Int z => pretty z
  end.

End Js.

(** ** Values, events and effects *)

(** A thrown value, seen through the ways the script inspects it:
    [error instanceof Error], [error.message], [String(error)] and
    [JSON.stringify(err)]. *)
Record Thrown : Type := {
  instanceofError : bool;
  message : string;
  toString : string;
  stringify : string
}.

(** [new Error(msg)] *)
Definition newError (msg : string) : Thrown :=
  {| instanceofError := true; message := msg;
     toString := "Error: " +:+ msg; stringify := "{}" |}.

(** [error instanceof Error ? error.message : String(error)] *)
Definition describe (error : Thrown) : string :=
  if instanceofError error then message error else toString error.

Inductive Transport : Type :=
  | StreamableHTTPServerTransport (port : Js.number)
  | StdioServerTransport.

(** What the command line parser hands over: [argv.tools] (a string,
    empty by default) and [argv.list-tools]. *)
Record Argv : Type := { argv_tools : string; argv_list_tools : bool }.

(** The two environment variables the script reads. *)
Record ProcessEnv : Type := { EXA_API_KEY : option string; PORT : option string }.

(** How the process ends up: [process.exit(code)], an exception that
    nothing catches, or the event loop left serving. *)
Inductive Outcome : Type :=
  | Exited (code : Z)
  | Uncaught (e : Thrown)
  | Serving.

(** The status the operating system sees; an uncaught exception ends
    Node with status 1, a serving process has not ended. *)
Definition exitStatus (o : Outcome) : option Z :=
  match o with
  | Exited code => Some code
  | Uncaught _ => Some 1%Z
  | Serving => None
  end.

Inductive Completion (A : Type) : Type :=
  | Normal (a : A)
  | Throw (e : Thrown).
Arguments Normal {A} a.
Arguments Throw {A} e.

Section Server.

(** The input schema and the handler of a tool are opaque to the script:
    it only passes them on to the session. *)
Context {Schema Handler : Type}.

(** An entry of [toolRegistry]. *)
Record Tool : Type := {
  name : string;
  description : string;
  schema : Schema;
  handler : Handler;
  enabled : bool
}.

(** The arguments of one [server.tool(name, description, schema, handler)]. *)
Record Registration : Type := {
  reg_name : string;
  reg_description : string;
  reg_schema : Schema;
  reg_handler : Handler
}.

(** [toolRegistry], as [Object.entries] enumerates it. *)
Local Abbreviation Registry := (list (string * Tool)).

Inductive Event : Type :=
  | ConsoleLog (line : string)
  | Log (msg : string)
  | NewMcpServer (server_name version : string)
  | ServerTool (r : Registration)
  | NewTransport (t : Transport)
  | SetOnError (t : Transport)
  | Connect (t : Transport).

(** The observable events of a run, oldest first. *)
Local Abbreviation Trace := (list Event).

(** The protocol SDK.  [None] means the call succeeds, [Some e] that it
    throws [e].  [server_tool] sees the registrations the session holds. *)
Record Sdk : Type := {
  new_McpServer : option Thrown;
  server_tool : list Registration -> Registration -> option Thrown;
  import_streamableHttp : option Thrown;
  new_StreamableHTTPServerTransport : Js.number -> option Thrown;
  import_stdio : option Thrown;
  new_StdioServerTransport : option Thrown;
  server_connect : Transport -> option Thrown
}.

(** A computation: from the trace so far to a completion and the trace
    after it.  Effects done before a throw stay in the trace. *)
Definition Eff (A : Type) : Type := Trace -> Completion A * Trace.

Definition ret {A} (a : A) : Eff A := fun tr => (Normal a, tr).

Definition bind {A B} (m : Eff A) (k : A -> Eff B) : Eff B :=
  fun tr =>
    match m tr with
    | (Normal a, tr') => k a tr'
    | (Throw e, tr') => (Throw e, tr')
    end.

Definition throw {A} (e : Thrown) : Eff A := fun tr => (Throw e, tr).

Definition try_catch {A} (body : Eff A) (handler' : Thrown -> Eff A) : Eff A :=
  fun tr =>
    match body tr with
    | (Normal a, tr') => (Normal a, tr')
    | (Throw e, tr') => handler' e tr'
    end.

Definition emit (ev : Event) : Eff unit := fun tr => (Normal tt, tr ++ [ev]).

(** A collaborator call that either throws or leaves an event. *)
Definition call (failure : option Thrown) (ev : list Event) : Eff unit :=
  fun tr =>
    match failure with
    | Some e => (Throw e, tr)
    | None => (Normal tt, tr ++ ev)
    end.

End Server.

Arguments Tool : clear implicits.
Arguments Registration : clear implicits.
Arguments Event : clear implicits.
Arguments Sdk : clear implicits.
Arguments Eff : clear implicits.

Abbreviation Registry Schema Handler := (list (string * Tool Schema Handler)).
Abbreviation Trace Schema Handler := (list (Event Schema Handler)).

Notation "'do' x <- m ; k" := (bind m (fun x => k))
  (at level 10, x name, m at level 100, k at level 200).
Notation "'do' ' pat <- m ; k" := (bind m (fun x => match x with pat => k end))
  (at level 10, pat pattern, m at level 100, k at level 200).

(** ** The script *)

Section Script.

Context {Schema Handler : Type}.

Local Abbreviation Tool := (Tool Schema Handler).
Local Abbreviation Registration := (Registration Schema Handler).
Local Abbreviation Registry := (Registry Schema Handler).
Local Abbreviation Event := (Event Schema Handler).
Local Abbreviation Trace := (Trace Schema Handler).
Local Abbreviation Sdk := (Sdk Schema Handler).
Local Abbreviation Eff := (Eff Schema Handler).

(** Modelled from the spec: [log(msg)] of [utils/logger.js], which is not
    among the sources; the spec has it write a message to the diagnostic
    stream, and it cannot fail. *)
Definition log (msg : string) : Eff unit := emit (Log msg).

(** [console.log(line)] *)
Definition console_log (line : string) : Eff unit := emit (ConsoleLog line).

(** Lines 28-33: the comma-separated [--tools] string as a set. *)
Definition toolsString (argv : Argv) : string :=
  if Js.truthy (argv_tools argv) then argv_tools argv else "".

Definition specifiedTools (argv : Argv) : gset string :=
  list_to_set
    (if Js.truthy (toolsString argv)
     then map Js.trim (Js.split "," (toolsString argv))
     else []).

(** [Array.prototype.forEach] with a callback that updates the local
    variables [locals] of the enclosing function. *)
Fixpoint forEach {A L : Type} (l : list A) (callback : A -> L -> Eff L) (locals : L)
  : Eff L :=
  match l with
  | [] => ret locals
  | x :: l' => do locals' <- callback x locals; forEach l' callback locals'
  end.

(** Lines 39-44: the callback of the listing. *)
Definition printTool (entry : string * Tool) (_ : unit) : Eff unit :=
  let '(id, tool) := entry in
  do _ <- console_log ("- " +:+ id +:+ ": " +:+ name tool);
  do _ <- console_log ("  Description: " +:+ description tool);
  do _ <- console_log ("  Enabled by default: " +:+ (if enabled tool then "Yes" else "No"));
  console_log "".

(** Lines 37-44: the listing of [--list-tools]. *)
Definition listTools (toolRegistry : Registry) : Eff unit :=
  do _ <- console_log "Available tools:";
  forEach toolRegistry printTool tt.

(** The registrations the session holds: the [server.tool] calls that
    went through. *)
Definition registrations (tr : Trace) : list Registration :=
  omap (fun ev => match ev with ServerTool r => Some r | _ => None end) tr.

Definition registrationOf (tool : Tool) : Registration :=
  {| reg_name := name tool; reg_description := description tool;
     reg_schema := schema tool; reg_handler := handler tool |}.

(** [this.server.tool(tool.name, tool.description, tool.schema, tool.handler)] *)
Definition McpServer_tool (sdk : Sdk) (tool : Tool) : Eff unit :=
  fun tr =>
    call (server_tool sdk (registrations tr) (registrationOf tool))
         [ServerTool (registrationOf tool)] tr.

(** Lines 87-89. *)
Definition shouldRegister (specified : gset string) (toolId : string) (tool : Tool) : bool :=
  if decide (0 < size specified)
  then bool_decide (toolId ∈ specified)
  else enabled tool.

(** Lines 84-100: the callback of the loop; [registeredTools] is the
    array it pushes to. *)
Definition registerIfSelected (sdk : Sdk) (specified : gset string)
  (entry : string * Tool) (registeredTools : list string) : Eff (list string) :=
  let '(toolId, tool) := entry in
  if shouldRegister specified toolId tool then
    do _ <- McpServer_tool sdk tool;
    ret (registeredTools ++ [toolId])
  else ret registeredTools.

(** Lines 80-103: [ExaServer.setupTools]. *)
Definition setupTools (sdk : Sdk) (toolRegistry : Registry) (specified : gset string)
  : Eff (list string) :=
  forEach toolRegistry (registerIfSelected sdk specified) [].

(** Line 116. *)
Definition selectPort (env : ProcessEnv) : Js.number :=
  match PORT env with
  | Some p => if Js.truthy p then Js.parseInt10 p else Js.Int 8080
  | None => Js.Int 8080
  end.

(** Lines 112-119: the body of the inner [try]. *)
Definition tryHttp (sdk : Sdk) (env : ProcessEnv) : Eff (Transport * bool) :=
  do _ <- call (import_streamableHttp sdk) [];
  let port := selectPort env in
  do _ <- call (new_StreamableHTTPServerTransport sdk port)
            [NewTransport (StreamableHTTPServerTransport port)];
  do _ <- log ("Using Streamable HTTP transport on port " +:+ Js.numberToString port);
  ret (StreamableHTTPServerTransport port, true).

(** Lines 120-126: the [catch] of the inner [try]. *)
Definition fallbackStdio (sdk : Sdk) (err : Thrown) : Eff (Transport * bool) :=
  do _ <- log ("[EXA-MCP-DEBUG] Failed to load HTTP transport: " +:+ stringify err);
  do _ <- call (import_stdio sdk) [];
  do _ <- call (new_StdioServerTransport sdk) [NewTransport StdioServerTransport];
  do _ <- log "Using stdio transport";
  ret (StdioServerTransport, false).

(** Lines 110-126: the transport and the flag [usingHttp]. *)
Definition selectTransport (sdk : Sdk) (env : ProcessEnv) : Eff (Transport * bool) :=
  try_catch (tryHttp sdk env) (fallbackStdio sdk).

(** Lines 105-143: [ExaServer.run]. *)
Definition run (sdk : Sdk) (env : ProcessEnv) (toolRegistry : Registry)
  (specified : gset string) : Eff unit :=
  try_catch
    (do registeredTools <- setupTools sdk toolRegistry specified;
     do _ <- log ("Starting Exa MCP server with " +:+ pretty (length registeredTools)
                  +:+ " tools: " +:+ Js.join ", " registeredTools);
     do '(transport, usingHttp) <- selectTransport sdk env;
     do _ <- emit (SetOnError transport);
     do _ <- call (server_connect sdk transport) [Connect transport];
     if (usingHttp : bool) then
       log "Exa Search MCP server running on HTTP (cloud/desktop compatible)"
     else
       log "Exa Search MCP server running on stdio (CLI/desktop compatible)")
    (fun error =>
       do _ <- log ("Server initialization error: " +:+ describe error);
       throw error).

(** Lines 71-78: the constructor of [ExaServer]. *)
Definition newExaServer (sdk : Sdk) : Eff unit :=
  do _ <- call (new_McpServer sdk) [NewMcpServer "exa-search-server" "0.3.10"];
  log "Server initialized".

(** Line 51: [!API_KEY]. *)
Definition missingApiKey (env : ProcessEnv) : bool :=
  match EXA_API_KEY env with
  | Some key => negb (Js.truthy key)
  | None => true
  end.

(** The whole module, top to bottom. *)
Definition main (sdk : Sdk) (argv : Argv) (env : ProcessEnv) (toolRegistry : Registry)
  : Outcome * Trace :=
  let specified := specifiedTools argv in
  if argv_list_tools argv then
    match listTools toolRegistry [] with
    | (Normal _, tr) => (Exited 0, tr)
    | (Throw error, tr) => (Uncaught error, tr)
    end
  else if missingApiKey env then
    (Uncaught (newError "EXA_API_KEY environment variable is required"), [])
  else
    match (do _ <- newExaServer sdk; run sdk env toolRegistry specified) [] with
    | (Normal _, tr) => (Serving, tr)
    | (Throw error, tr) =>
        (Exited 1, tr ++ [Log ("Fatal server error: " +:+ describe error)])
    end.

End Script.

(** ** Observations on traces and on the SDK *)

Section Observations.

Context {Schema Handler : Type}.

Local Abbreviation Tool := (Tool Schema Handler).
Local Abbreviation Registration := (Registration Schema Handler).
Local Abbreviation Registry := (Registry Schema Handler).
Local Abbreviation Event := (Event Schema Handler).
Local Abbreviation Trace := (Trace Schema Handler).
Local Abbreviation Sdk := (Sdk Schema Handler).
Local Abbreviation Eff := (Eff Schema Handler).

(** The transports constructed, given an error observer, and connected to
    the session, in the order of the trace. *)
Definition constructed (tr : Trace) : list Transport :=
  omap (fun ev => match ev with NewTransport t => Some t | _ => None end) tr.

Definition observed (tr : Trace) : list Transport :=
  omap (fun ev => match ev with SetOnError t => Some t | _ => None end) tr.

Definition connected (tr : Trace) : list Transport :=
  omap (fun ev => match ev with Connect t => Some t | _ => None end) tr.

(** The four lines the listing prints for an entry, and the whole listing. *)
Definition listLines (entry : string * Tool) : list string :=
  [ "- " +:+ entry.1 +:+ ": " +:+ name entry.2;
    "  Description: " +:+ description entry.2;
    "  Enabled by default: " +:+ (if enabled entry.2 then "Yes" else "No");
    "" ].

Definition listing (toolRegistry : Registry) : list string :=
  "Available tools:" :: flat_map listLines toolRegistry.

(** A trace in which no transport is constructed, observed or connected. *)
Definition quiet (tr : Trace) : Prop :=
  constructed tr = [] /\ observed tr = [] /\ connected tr = [].

(** The event a successful registration of an entry leaves. *)
Definition registered (entry : string * Tool) : Event :=
  ServerTool (registrationOf entry.2).

(** The session accepts the registrations [rs] one after the other when
    it already holds [held]. *)
Fixpoint accepts (sdk : Sdk) (held rs : list Registration) : Prop :=
  match rs with
  | [] => True
  | r :: rs' => server_tool sdk held r = None /\ accepts sdk (held ++ [r]) rs'
  end.

(** What the construction of the network transport throws, if anything:
    the dynamic import or the constructor. *)
Definition httpFailure (sdk : Sdk) (env : ProcessEnv) : option Thrown :=
  match import_streamableHttp sdk with
  | Some e => Some e
  | None => new_StreamableHTTPServerTransport sdk (selectPort env)
  end.

(** What the construction of the pipe transport throws, if anything. *)
Definition stdioFailure (sdk : Sdk) : option Thrown :=
  match import_stdio sdk with
  | Some e => Some e
  | None => new_StdioServerTransport sdk
  end.

(** The lines the script logs. *)
Definition logStarting (registeredTools : list string) : Event :=
  Log ("Starting Exa MCP server with " +:+ pretty (length registeredTools)
       +:+ " tools: " +:+ Js.join ", " registeredTools).

Definition logHttpFailed (err : Thrown) : Event :=
  Log ("[EXA-MCP-DEBUG] Failed to load HTTP transport: " +:+ stringify err).

Definition logUsingHttp (port : Js.number) : Event :=
  Log ("Using Streamable HTTP transport on port " +:+ Js.numberToString port).

Definition logUsingStdio : Event := Log "Using stdio transport".

Definition logRunning (usingHttp : bool) : Event :=
  Log (if usingHttp
       then "Exa Search MCP server running on HTTP (cloud/desktop compatible)"
       else "Exa Search MCP server running on stdio (CLI/desktop compatible)").

Definition logInitError (error : Thrown) : Event :=
  Log ("Server initialization error: " +:+ describe error).

Definition logFatal (error : Thrown) : Event :=
  Log ("Fatal server error: " +:+ describe error).

(** The trace once [new ExaServer()] has returned. *)
Definition started : Trace :=
  [NewMcpServer "exa-search-server" "0.3.10"; Log "Server initialized"].

(** Two registries that differ at most in the [enabled] flags. *)
Definition sameButEnabled (r1 r2 : Registry) : Prop :=
  Forall2 (fun e1 e2 => e1.1 = e2.1 /\ registrationOf e1.2 = registrationOf e2.2) r1 r2.

(** Every character is a comma or white space. *)
Fixpoint onlySeparators (s : string) : bool :=
  match s with
  | EmptyString => true
  | String c s' => (Ascii.eqb c "," || Js.isWhiteSpace c) && onlySeparators s'
  end.

(** Every character is white space. *)
Fixpoint onlyWhiteSpace (s : string) : bool :=
  match s with
  | EmptyString => true
  | String c s' => Js.isWhiteSpace c && onlyWhiteSpace s'
  end.

(** The entries [setupTools] lets through. *)
Definition selected (specified : gset string) (toolRegistry : Registry) : Registry :=
  List.filter (fun entry => shouldRegister specified entry.1 entry.2) toolRegistry.

(** The loop of [setupTools] without its test: every entry is registered. *)
Fixpoint registerEach (sdk : Sdk) (entries : Registry) (registeredTools : list string)
  : Eff (list string) :=
  match entries with
  | [] => ret registeredTools
  | entry :: entries' =>
      do _ <- McpServer_tool sdk entry.2;
      registerEach sdk entries' (registeredTools ++ [entry.1])
  end.

End Observations.

(** ** Further observations *)

Section FurtherObservations.

Context {Schema Handler : Type}.

Local Abbreviation Event := (Event Schema Handler).
Local Abbreviation Sdk := (Sdk Schema Handler).

(** The transport the selector ends up with, if any: the network
    transport when its construction succeeds, else the pipe transport
    when that one succeeds. *)
Definition chosenTransport (sdk : Sdk) (env : ProcessEnv) : option Transport :=
  match httpFailure sdk env with
  | None => Some (StreamableHTTPServerTransport (selectPort env))
  | Some _ =>
      match stdioFailure sdk with
      | None => Some StdioServerTransport
      | Some _ => None
      end
  end.

Definition isHttp (transport : Transport) : bool :=
  match transport with
  | StreamableHTTPServerTransport _ => true
  | StdioServerTransport => false
  end.

(** The events that touch a transport. *)
Definition isTransportEvent (ev : Event) : bool :=
  match ev with
  | NewTransport _ | SetOnError _ | Connect _ => true
  | _ => false
  end.

(** The SDK with another pipe transport. *)
Definition withStdio (sdk : Sdk) (import new : option Thrown) : Sdk :=
  {| new_McpServer := new_McpServer sdk;
     server_tool := server_tool sdk;
     import_streamableHttp := import_streamableHttp sdk;
     new_StreamableHTTPServerTransport := new_StreamableHTTPServerTransport sdk;
     import_stdio := import;
     new_StdioServerTransport := new;
     server_connect := server_connect sdk |}.

(** The string holds no comma. *)
Fixpoint noComma (s : string) : bool :=
  match s with
  | EmptyString => true
  | String c s' => negb (Ascii.eqb c ",") && noComma s'
  end.

(** The first character, if any, is not white space. *)
Definition headTrimmed (s : string) : bool :=
  match s with
  | EmptyString => true
  | String c _ => negb (Js.isWhiteSpace c)
  end.

(** The string starts with a decimal digit. *)
Definition startsWithDigit (s : string) : bool :=
  match s with
  | EmptyString => false
  | String c _ => match Js.digit c with Some _ => true | None => false end
  end.

End FurtherObservations.

(** ** Sample inputs

    A registry of three tools, a session that refuses a name it already
    holds (as the SDK's [McpServer.tool] does), and runtimes with and
    without the network transport. *)

Definition sampleTool (n d : string) (e : bool) : Tool unit unit :=
  {| name := n; description := d; schema := tt; handler := tt; enabled := e |}.

Definition sampleRegistry : Registry unit unit :=
  [ ("web_search", sampleTool "web_search" "Search the web" true);
    ("research_paper_search", sampleTool "research_paper_search" "Search papers" false);
    ("twitter_search", sampleTool "twitter_search" "Search tweets" false) ].

Definition duplicateName (held : list (Registration unit unit)) (r : Registration unit unit)
  : option Thrown :=
  if bool_decide (reg_name r ∈ map reg_name held)
  then Some (newError ("Tool " +:+ reg_name r +:+ " is already registered"))
  else None.

Definition sdkHttp : Sdk unit unit :=
  {| new_McpServer := None;
     server_tool := duplicateName;
     import_streamableHttp := None;
     new_StreamableHTTPServerTransport := fun _ => None;
     import_stdio := None;
     new_StdioServerTransport := None;
     server_connect := fun _ => None |}.

Definition sdkStdioOnly : Sdk unit unit :=
  {| new_McpServer := None;
     server_tool := duplicateName;
     import_streamableHttp := Some (newError "Cannot find module streamableHttp.js");
     new_StreamableHTTPServerTransport := fun _ => None;
     import_stdio := None;
     new_StdioServerTransport := None;
     server_connect := fun _ => None |}.

Definition sdkNoTransport : Sdk unit unit :=
  {| new_McpServer := None;
     server_tool := duplicateName;
     import_streamableHttp := Some (newError "Cannot find module streamableHttp.js");
     new_StreamableHTTPServerTransport := fun _ => None;
     import_stdio := None;
     new_StdioServerTransport := Some (newError "stdin is closed");
     server_connect := fun _ => None |}.

Definition sdkNoSession : Sdk unit unit :=
  {| new_McpServer := Some (newError "Invalid server options");
     server_tool := duplicateName;
     import_streamableHttp := None;
     new_StreamableHTTPServerTransport := fun _ => None;
     import_stdio := None;
     new_StdioServerTransport := None;
     server_connect := fun _ => None |}.

Definition argvOf (tools : string) (list_tools : bool) : Argv :=
  {| argv_tools := tools; argv_list_tools := list_tools |}.

Definition envOf (key port : option string) : ProcessEnv :=
  {| EXA_API_KEY := key; PORT := port |}.

(** * Proofs *)

Example trim_ex : Js.trim "  web_search " = "web_search".
Proof. reflexivity. Qed.

Example split_ex : Js.split "," "a,,b" = ["a"; ""; "b"].
Proof. reflexivity. Qed.

Example parseInt_ex : Js.parseInt10 " 3000px" = Js.Int 3000 /\ Js.parseInt10 "" = Js.NaN
  /\ Js.parseInt10 "-12" = Js.Int (-12) /\ Js.parseInt10 "x1" = Js.NaN.
Proof. repeat split; reflexivity. Qed.

Example numberToString_ex : Js.numberToString (Js.Int 8080) = "8080".
Proof. reflexivity. Qed.


(** ** Lemmas on the string functions *)

Lemma split_nonempty sep s : Js.split sep s <> [].
Proof.
  destruct s as [|c s]; simpl; [discriminate|].
  destruct (Ascii.eqb c sep); [discriminate|].
  destruct (Js.split sep s); discriminate.
Qed.

Lemma trim_onlyWhiteSpace s : onlyWhiteSpace s = true -> Js.trim s = "".
Proof.
  unfold Js.trim. induction s as [|c s IH]; simpl; [reflexivity|].
  intros [Hc Hs]%andb_prop. rewrite Hc. auto.
Qed.

Lemma split_onlySeparators s :
  onlySeparators s = true -> Forall (fun p => onlyWhiteSpace p = true) (Js.split "," s).
Proof.
  induction s as [|c s IH]; simpl.
  - intros _. repeat constructor.
  - intros [Hc Hs]%andb_prop. specialize (IH Hs).
    destruct (Ascii.eqb c ",") eqn:Hcomma.
    + constructor; [reflexivity|exact IH].
    + simpl in Hc. destruct (Js.split "," s) as [|p ps] eqn:Hsplit.
      * repeat constructor. simpl. rewrite Hc. reflexivity.
      * inversion IH; subst. constructor; [|assumption].
        simpl. rewrite Hc. assumption.
Qed.

Lemma truthy_true s : Js.truthy s = true <-> s <> "".
Proof. destruct s; simpl; split; intros; congruence. Qed.

Lemma toolsString_id argv : toolsString argv = argv_tools argv.
Proof. unfold toolsString. destruct (argv_tools argv); reflexivity. Qed.

Lemma specifiedTools_nonempty argv :
  argv_tools argv <> "" ->
  specifiedTools argv = list_to_set (map Js.trim (Js.split "," (argv_tools argv))).
Proof.
  intros H. unfold specifiedTools. rewrite toolsString_id.
  apply truthy_true in H. rewrite H. reflexivity.
Qed.

Lemma specifiedTools_size argv :
  size (specifiedTools argv) = 0 <-> argv_tools argv = "".
Proof.
  split.
  - intros Hsize. destruct (decide (argv_tools argv = "")) as [|Hne]; [assumption|].
    rewrite (specifiedTools_nonempty _ Hne) in Hsize.
    apply size_empty_inv in Hsize.
    pose proof (split_nonempty "," (argv_tools argv)) as Hsplit.
    destruct (Js.split "," (argv_tools argv)) as [|p ps]; [congruence|].
    simpl in Hsize. exfalso. set_solver.
  - intros Heq. unfold specifiedTools. rewrite toolsString_id, Heq. reflexivity.
Qed.

Lemma specifiedTools_separators argv :
  argv_tools argv <> "" -> onlySeparators (argv_tools argv) = true ->
  specifiedTools argv = {[ "" ]}.
Proof.
  intros Hne Hsep. rewrite (specifiedTools_nonempty _ Hne).
  pose proof (split_nonempty "," (argv_tools argv)) as Hsplit.
  pose proof (split_onlySeparators _ Hsep) as Hall.
  destruct (Js.split "," (argv_tools argv)) as [|p ps]; [congruence|].
  clear Hsplit. inversion Hall as [|? ? Hp Hps]; subst.
  simpl. rewrite (trim_onlyWhiteSpace _ Hp).
  assert (list_to_set (map Js.trim ps) ⊆ ({[ "" ]} : gset string)) as Hsub.
  { clear -Hps. induction Hps as [|q qs Hq _ IH]; simpl; [apply empty_subseteq|].
    rewrite (trim_onlyWhiteSpace _ Hq). apply union_subseteq. split; [reflexivity|exact IH]. }
  apply leibniz_equiv, (anti_symm (⊆)).
  - apply union_subseteq. split; [reflexivity|exact Hsub].
  - apply union_subseteq_l.
Qed.

(** ** Lemmas on the registration loop *)

Section Registration.

Context {Schema Handler : Type}.

Local Abbreviation Tool := (Tool Schema Handler).
Local Abbreviation Registration := (Registration Schema Handler).
Local Abbreviation Registry := (Registry Schema Handler).
Local Abbreviation Event := (Event Schema Handler).
Local Abbreviation Trace := (Trace Schema Handler).
Local Abbreviation Sdk := (Sdk Schema Handler).
Local Abbreviation Eff := (Eff Schema Handler).

Lemma registrations_app (tr1 tr2 : Trace) :
  registrations (tr1 ++ tr2) = registrations tr1 ++ registrations tr2.
Proof. apply omap_app. Qed.

Lemma registrations_registered (entries : Registry) :
  registrations (map registered entries) = map (fun entry => registrationOf entry.2) entries.
Proof. induction entries as [|x l IH]; simpl; [reflexivity|]. f_equal. exact IH. Qed.

Lemma setupTools_registerEach (sdk : Sdk) (toolRegistry : Registry) specified tr :
  setupTools sdk toolRegistry specified tr
  = registerEach sdk (selected specified toolRegistry) [] tr.
Proof.
  unfold setupTools, selected. generalize (@nil string) as acc. revert tr.
  induction toolRegistry as [|[toolId tool] l IH]; intros tr acc; simpl; [reflexivity|].
  destruct (shouldRegister specified toolId tool); simpl.
  - unfold bind at 1 2 3. destruct (McpServer_tool sdk tool tr) as [[[]|e] tr1]; [|reflexivity].
    unfold ret at 1. apply IH.
  - unfold bind at 1, ret at 1. apply IH.
Qed.

Lemma registerEach_accepts (sdk : Sdk) (entries : Registry) acc tr :
  accepts sdk (registrations tr) (map (fun entry => registrationOf entry.2) entries) ->
  registerEach sdk entries acc tr
  = (Normal (acc ++ map fst entries), tr ++ map registered entries).
Proof.
  revert acc tr. induction entries as [|[id tool] l IH]; intros acc tr; simpl.
  - intros _. unfold ret. rewrite !app_nil_r. reflexivity.
  - intros [Hok Hrest]. unfold bind, McpServer_tool, call. simpl. rewrite Hok.
    rewrite IH.
    + rewrite <- !app_assoc. reflexivity.
    + rewrite registrations_app. exact Hrest.
Qed.

Lemma registerEach_normal (sdk : Sdk) (entries : Registry) acc tr ids tr' :
  registerEach sdk entries acc tr = (Normal ids, tr') ->
  ids = acc ++ map fst entries /\ tr' = tr ++ map registered entries
  /\ accepts sdk (registrations tr) (map (fun entry => registrationOf entry.2) entries).
Proof.
  revert acc tr. induction entries as [|[id tool] l IH]; intros acc tr; simpl.
  - unfold ret. intros [= <- <-]. rewrite !app_nil_r. auto.
  - unfold bind, McpServer_tool, call. simpl.
    destruct (server_tool sdk (registrations tr) (registrationOf tool)) eqn:Hcall;
      [discriminate|].
    intros H. apply IH in H as (-> & -> & Hacc).
    rewrite <- !app_assoc. repeat split; try reflexivity.
    rewrite registrations_app in Hacc. exact Hacc.
Qed.

Lemma registerEach_throw (sdk : Sdk) (entries : Registry) acc tr e tr' :
  registerEach sdk entries acc tr = (Throw e, tr') ->
  exists before entry after,
    entries = before ++ entry :: after
    /\ tr' = tr ++ map registered before
    /\ server_tool sdk (registrations tr') (registrationOf entry.2) = Some e.
Proof.
  revert acc tr. induction entries as [|[id tool] l IH]; intros acc tr; simpl.
  - unfold ret. discriminate.
  - unfold bind, McpServer_tool, call. simpl.
    destruct (server_tool sdk (registrations tr) (registrationOf tool)) eqn:Hcall.
    + intros [= <- <-]. exists [], (id, tool), l. simpl. rewrite app_nil_r. auto.
    + intros H. apply IH in H as (before & entry & after & -> & -> & Hthrow).
      exists ((id, tool) :: before), entry, after.
      split; [reflexivity|]. split; [|exact Hthrow].
      simpl. rewrite <- app_assoc. reflexivity.
Qed.

(** [setupTools] only adds registrations to the trace. *)
Lemma setupTools_trace (sdk : Sdk) (toolRegistry : Registry) specified tr :
  exists entries,
    (setupTools sdk toolRegistry specified tr).2 = tr ++ map registered entries.
Proof.
  rewrite setupTools_registerEach.
  destruct (registerEach sdk (selected specified toolRegistry) [] tr) as [[ids|e] tr'] eqn:H.
  - apply registerEach_normal in H as (_ & -> & _). eauto.
  - apply registerEach_throw in H as (before & _ & _ & _ & -> & _). eauto.
Qed.

Lemma selected_requested (toolRegistry : Registry) (requested : gset string) :
  0 < size requested ->
  selected requested toolRegistry
  = List.filter (fun entry => bool_decide (entry.1 ∈ requested)) toolRegistry.
Proof.
  intros H. unfold selected, shouldRegister.
  destruct (decide (0 < size requested)); [reflexivity|contradiction].
Qed.

Lemma selected_defaults (toolRegistry : Registry) (requested : gset string) :
  size requested = 0 ->
  selected requested toolRegistry = List.filter (fun entry => enabled entry.2) toolRegistry.
Proof.
  intros H. unfold selected, shouldRegister.
  destruct (decide (0 < size requested)); [lia|reflexivity].
Qed.

Lemma registerEach_sameButEnabled (sdk : Sdk) (l1 l2 : Registry) :
  sameButEnabled l1 l2 ->
  forall acc tr, registerEach sdk l1 acc tr = registerEach sdk l2 acc tr.
Proof.
  induction 1 as [|[id1 t1] [id2 t2] l1 l2 [Hid Hreg] _ IH]; intros acc tr; [reflexivity|].
  simpl in *. subst id2. unfold bind, McpServer_tool. rewrite Hreg.
  destruct (call _ _ tr) as [[[]|e] tr1]; [apply IH|reflexivity].
Qed.

Lemma filter_sameButEnabled (p : string -> bool) (l1 l2 : Registry) :
  sameButEnabled l1 l2 ->
  sameButEnabled (List.filter (fun entry => p entry.1) l1)
                 (List.filter (fun entry => p entry.1) l2).
Proof.
  induction 1 as [|e1 e2 l1 l2 [Hid Hreg] _ IH]; simpl; [constructor|].
  rewrite <- Hid. destruct (p e1.1); [constructor; auto|exact IH].
Qed.

Lemma selected_elem_of (specified : gset string) (toolRegistry : Registry) entry :
  entry ∈ selected specified toolRegistry
  <-> entry ∈ toolRegistry /\ shouldRegister specified entry.1 entry.2 = true.
Proof. unfold selected. rewrite !list_elem_of_In, List.filter_In. reflexivity. Qed.

Lemma selected_sublist (specified : gset string) (toolRegistry : Registry) :
  sublist (selected specified toolRegistry) toolRegistry.
Proof.
  unfold selected. induction toolRegistry as [|x l IH]; simpl; [constructor|].
  destruct (shouldRegister specified x.1 x.2); constructor; exact IH.
Qed.

(** What [setupTools] does in terms of the entries it lets through. *)
Lemma setupTools_accepts (sdk : Sdk) (toolRegistry : Registry) specified tr :
  accepts sdk (registrations tr)
    (map (fun entry => registrationOf entry.2) (selected specified toolRegistry)) ->
  setupTools sdk toolRegistry specified tr
  = (Normal (map fst (selected specified toolRegistry)),
     tr ++ map registered (selected specified toolRegistry)).
Proof. intros H. rewrite setupTools_registerEach. apply (registerEach_accepts _ _ []), H. Qed.

Lemma setupTools_normal (sdk : Sdk) (toolRegistry : Registry) specified tr ids tr' :
  setupTools sdk toolRegistry specified tr = (Normal ids, tr') ->
  ids = map fst (selected specified toolRegistry)
  /\ tr' = tr ++ map registered (selected specified toolRegistry).
Proof.
  rewrite setupTools_registerEach. intros H.
  apply registerEach_normal in H as (-> & -> & _). auto.
Qed.

Lemma setupTools_throw (sdk : Sdk) (toolRegistry : Registry) specified tr e tr' :
  setupTools sdk toolRegistry specified tr = (Throw e, tr') ->
  exists before entry after,
    selected specified toolRegistry = before ++ entry :: after
    /\ tr' = tr ++ map registered before
    /\ server_tool sdk (registrations tr') (registrationOf entry.2) = Some e.
Proof. rewrite setupTools_registerEach. apply registerEach_throw. Qed.

End Registration.

(** ** Enablement: which tools [setupTools] registers *)

Section Enablement.

Context {Schema Handler : Type}.

Local Abbreviation Tool := (Tool Schema Handler).
Local Abbreviation Registry := (Registry Schema Handler).
Local Abbreviation Trace := (Trace Schema Handler).
Local Abbreviation Sdk := (Sdk Schema Handler).

Lemma size_pos_union (requested : gset string) (x : string) :
  0 < size requested -> 0 < size ({[ x ]} ∪ requested).
Proof.
  intros H. assert (size requested <= size ({[ x ]} ∪ requested)); [|lia].
  apply subseteq_size. set_solver.
Qed.

Lemma filter_none {A} (p : A -> bool) (l : list A) :
  Forall (fun x => p x = false) l -> List.filter p l = [].
Proof. induction 1 as [|x l Hx _ IH]; simpl; [reflexivity|]. rewrite Hx. exact IH. Qed.

(** C1: when the requested set is not empty, [setupTools] registers, in
    the order of the registry, exactly the entries whose id is requested
    and is a key of the registry, and returns their ids; it throws only
    when the session rejects one of these entries.  A requested id that
    is no key of the registry changes nothing, and neither do the
    [enabled] flags. *)
Theorem C1_requested_tools_registered (sdk : Sdk) (toolRegistry : Registry)
  (requested : gset string) (tr : Trace) :
  0 < size requested ->
  let chosen := List.filter (fun entry => bool_decide (entry.1 ∈ requested)) toolRegistry in
  (forall id, id ∈ map fst chosen <-> id ∈ requested /\ id ∈ map fst toolRegistry)
  /\ (accepts sdk (registrations tr) (map (fun entry => registrationOf entry.2) chosen) ->
      setupTools sdk toolRegistry requested tr
      = (Normal (map fst chosen), tr ++ map registered chosen))
  /\ (forall ids tr',
        setupTools sdk toolRegistry requested tr = (Normal ids, tr') ->
        ids = map fst chosen /\ tr' = tr ++ map registered chosen)
  /\ (forall e tr',
        setupTools sdk toolRegistry requested tr = (Throw e, tr') ->
        exists before entry after,
          chosen = before ++ entry :: after
          /\ tr' = tr ++ map registered before
          /\ server_tool sdk (registrations tr') (registrationOf entry.2) = Some e)
  /\ (forall absent,
        absent ∉ map fst toolRegistry ->
        setupTools sdk toolRegistry ({[ absent ]} ∪ requested) tr
        = setupTools sdk toolRegistry requested tr)
  /\ (forall toolRegistry',
        sameButEnabled toolRegistry toolRegistry' ->
        setupTools sdk toolRegistry' requested tr
        = setupTools sdk toolRegistry requested tr).
Proof.
  intros Hsize chosen.
  assert (selected requested toolRegistry = chosen) as Hsel
    by apply (selected_requested _ _ Hsize).
  repeat apply conj.
  - intros id. subst chosen. rewrite !list_elem_of_fmap. split.
    + intros [[id' tool] [-> Hin]]. apply list_elem_of_In, List.filter_In in Hin as [Hin Hreq].
      simpl in *. apply bool_decide_eq_true in Hreq. split; [exact Hreq|].
      exists (id', tool). split; [reflexivity|]. apply list_elem_of_In, Hin.
    + intros [Hreq [[id' tool] [-> Hin]]]. exists (id', tool). split; [reflexivity|].
      apply list_elem_of_In, List.filter_In. split; [apply list_elem_of_In, Hin|].
      apply bool_decide_eq_true. exact Hreq.
  - rewrite <- Hsel. apply setupTools_accepts.
  - rewrite <- Hsel. apply setupTools_normal.
  - rewrite <- Hsel. apply setupTools_throw.
  - intros absent Habsent. rewrite !setupTools_registerEach. f_equal.
    rewrite (selected_requested _ _ Hsize).
    rewrite (selected_requested _ _ (size_pos_union _ absent Hsize)).
    apply List.filter_ext_in. intros [id tool] Hin. simpl.
    apply bool_decide_ext. split; [|set_solver].
    intros [Heq%elem_of_singleton|Hreq]%elem_of_union; [|exact Hreq].
    exfalso. apply Habsent. subst absent.
    apply list_elem_of_fmap. exists (id, tool). split; [reflexivity|apply list_elem_of_In, Hin].
  - intros toolRegistry' Hsame. rewrite !setupTools_registerEach.
    rewrite !(selected_requested _ _ Hsize). symmetry.
    apply registerEach_sameButEnabled.
    pose (p := fun id : string => bool_decide (id ∈ requested)).
    apply (filter_sameButEnabled p), Hsame.
Qed.

(** C2: when the requested set is empty, [setupTools] registers, in the
    order of the registry, exactly the entries whose [enabled] flag is
    true, and returns their ids; it throws only when the session rejects
    one of these entries.  When every flag is false it registers nothing
    and returns the empty list, whatever the session would do. *)
Theorem C2_default_tools_registered (sdk : Sdk) (toolRegistry : Registry)
  (requested : gset string) (tr : Trace) :
  size requested = 0 ->
  let chosen := List.filter (fun entry => enabled entry.2) toolRegistry in
  (accepts sdk (registrations tr) (map (fun entry => registrationOf entry.2) chosen) ->
   setupTools sdk toolRegistry requested tr
   = (Normal (map fst chosen), tr ++ map registered chosen))
  /\ (forall ids tr',
        setupTools sdk toolRegistry requested tr = (Normal ids, tr') ->
        ids = map fst chosen /\ tr' = tr ++ map registered chosen)
  /\ (forall e tr',
        setupTools sdk toolRegistry requested tr = (Throw e, tr') ->
        exists before entry after,
          chosen = before ++ entry :: after
          /\ tr' = tr ++ map registered before
          /\ server_tool sdk (registrations tr') (registrationOf entry.2) = Some e)
  /\ (Forall (fun entry => enabled entry.2 = false) toolRegistry ->
      setupTools sdk toolRegistry requested tr = (Normal [], tr)).
Proof.
  intros Hsize chosen.
  assert (selected requested toolRegistry = chosen) as Hsel
    by apply (selected_defaults _ _ Hsize).
  repeat apply conj.
  - rewrite <- Hsel. apply setupTools_accepts.
  - rewrite <- Hsel. apply setupTools_normal.
  - rewrite <- Hsel. apply setupTools_throw.
  - intros Hnone. rewrite setupTools_registerEach, Hsel. subst chosen.
    rewrite (filter_none _ _ Hnone). reflexivity.
Qed.

End Enablement.

(** ** The transport selector, [run] and the module as a whole *)

Section Startup.

Context {Schema Handler : Type}.

Local Abbreviation Tool := (Tool Schema Handler).
Local Abbreviation Registry := (Registry Schema Handler).
Local Abbreviation Event := (Event Schema Handler).
Local Abbreviation Trace := (Trace Schema Handler).
Local Abbreviation Sdk := (Sdk Schema Handler).

Ltac run_effects :=
  unfold try_catch, bind, ret, throw, log, emit, call; simpl.

Lemma selectTransport_http (sdk : Sdk) env (tr : Trace) :
  httpFailure sdk env = None ->
  selectTransport sdk env tr
  = (Normal (StreamableHTTPServerTransport (selectPort env), true),
     tr ++ [NewTransport (StreamableHTTPServerTransport (selectPort env));
            logUsingHttp (selectPort env)]).
Proof.
  unfold httpFailure, selectTransport, tryHttp. run_effects.
  destruct (import_streamableHttp sdk); [discriminate|]. intros ->.
  rewrite app_nil_r, <- app_assoc. reflexivity.
Qed.

Lemma selectTransport_stdio (sdk : Sdk) env (tr : Trace) e :
  httpFailure sdk env = Some e -> stdioFailure sdk = None ->
  selectTransport sdk env tr
  = (Normal (StdioServerTransport, false),
     tr ++ [logHttpFailed e; NewTransport StdioServerTransport; logUsingStdio]).
Proof.
  unfold httpFailure, stdioFailure, selectTransport, tryHttp, fallbackStdio. run_effects.
  intros Hhttp Hstdio.
  destruct (import_stdio sdk); [discriminate|]. rewrite Hstdio.
  destruct (import_streamableHttp sdk) as [e0|].
  - injection Hhttp as ->. rewrite app_nil_r, <- !app_assoc. reflexivity.
  - rewrite Hhttp, !app_nil_r, <- !app_assoc. reflexivity.
Qed.

Lemma selectTransport_none (sdk : Sdk) env (tr : Trace) e e' :
  httpFailure sdk env = Some e -> stdioFailure sdk = Some e' ->
  selectTransport sdk env tr = (Throw e', tr ++ [logHttpFailed e]).
Proof.
  unfold httpFailure, stdioFailure, selectTransport, tryHttp, fallbackStdio. run_effects.
  intros Hhttp Hstdio.
  destruct (import_streamableHttp sdk) as [e0|].
  - injection Hhttp as ->.
    destruct (import_stdio sdk) as [e1|].
    + injection Hstdio as ->. reflexivity.
    + rewrite Hstdio, app_nil_r. reflexivity.
  - rewrite Hhttp, !app_nil_r.
    destruct (import_stdio sdk) as [e1|].
    + injection Hstdio as ->. reflexivity.
    + rewrite Hstdio. reflexivity.
Qed.

(** [run], step by step. *)
Lemma run_steps (sdk : Sdk) env (toolRegistry : Registry) specified (tr : Trace) :
  run sdk env toolRegistry specified tr =
  match setupTools sdk toolRegistry specified tr with
  | (Throw e, tr1) => (Throw e, tr1 ++ [logInitError e])
  | (Normal registeredTools, tr1) =>
      match selectTransport sdk env (tr1 ++ [logStarting registeredTools]) with
      | (Throw e, tr2) => (Throw e, tr2 ++ [logInitError e])
      | (Normal (transport, usingHttp), tr2) =>
          match server_connect sdk transport with
          | Some e => (Throw e, tr2 ++ [SetOnError transport; logInitError e])
          | None =>
              (Normal tt,
               tr2 ++ [SetOnError transport; Connect transport; logRunning usingHttp])
          end
      end
  end.
Proof.
  unfold run. run_effects.
  destruct (setupTools sdk toolRegistry specified tr) as [[ids|e] tr1]; [|reflexivity].
  destruct (selectTransport sdk env _) as [[[t usingHttp]|e] tr2]; [|reflexivity].
  destruct (server_connect sdk t) as [e|].
  - rewrite <- app_assoc. reflexivity.
  - destruct usingHttp; rewrite <- !app_assoc; reflexivity.
Qed.

(** The module outside listing mode and with a credential. *)
Lemma main_server (sdk : Sdk) argv env (toolRegistry : Registry) :
  argv_list_tools argv = false -> missingApiKey env = false ->
  main sdk argv env toolRegistry =
  match new_McpServer sdk with
  | Some e => (Exited 1, [logFatal e])
  | None =>
      match run sdk env toolRegistry (specifiedTools argv) started with
      | (Normal _, tr) => (Serving, tr)
      | (Throw e, tr) => (Exited 1, tr ++ [logFatal e])
      end
  end.
Proof.
  intros Hlist Hkey. unfold main, newExaServer. rewrite Hlist, Hkey. run_effects.
  destruct (new_McpServer sdk); reflexivity.
Qed.

Lemma flat_map_listLines_lookup (toolRegistry : Registry) i entry k :
  toolRegistry !! i = Some entry -> k < 4 ->
  flat_map listLines toolRegistry !! (4 * i + k) = listLines entry !! k.
Proof.
  revert i. induction toolRegistry as [|[id tool] l IH]; intros i Hi Hk; [discriminate|].
  change (flat_map listLines ((id, tool) :: l))
    with (listLines (id, tool) ++ flat_map listLines l).
  destruct i as [|i].
  - injection Hi as <-. rewrite lookup_app_l; [reflexivity|simpl; lia].
  - rewrite lookup_app_r; [|simpl; lia].
    replace (4 * S i + k - length (listLines (id, tool))) with (4 * i + k) by (simpl; lia).
    apply IH; assumption.
Qed.

Lemma listing_lookup (toolRegistry : Registry) i entry k :
  toolRegistry !! i = Some entry -> k < 4 ->
  listing toolRegistry !! (S k + 4 * i) = listLines entry !! k.
Proof.
  intros Hi Hk. unfold listing.
  replace (S k + 4 * i) with (S (4 * i + k)) by lia.
  apply (flat_map_listLines_lookup _ _ _ _ Hi Hk).
Qed.

Lemma listing_length (toolRegistry : Registry) :
  length (listing toolRegistry) = 1 + 4 * length toolRegistry.
Proof.
  unfold listing. simpl. f_equal.
  induction toolRegistry as [|[id tool] l IH]; [reflexivity|].
  change (flat_map listLines ((id, tool) :: l))
    with (listLines (id, tool) ++ flat_map listLines l).
  rewrite length_app, IH. simpl. lia.
Qed.

Lemma listTools_prints (toolRegistry : Registry) (tr : Trace) :
  listTools toolRegistry tr = (Normal tt, tr ++ map ConsoleLog (listing toolRegistry)).
Proof.
  unfold listTools, listing, bind at 1, console_log, emit.
  change (map ConsoleLog ("Available tools:" :: flat_map listLines toolRegistry))
    with ([ConsoleLog "Available tools:" : Event]
          ++ map ConsoleLog (flat_map listLines toolRegistry)).
  rewrite app_assoc. generalize (tr ++ [ConsoleLog "Available tools:" : Event]).
  induction toolRegistry as [|[id tool] l IH]; intros tr0.
  - simpl. unfold ret. rewrite app_nil_r. reflexivity.
  - change (flat_map listLines ((id, tool) :: l))
      with (listLines (id, tool) ++ flat_map listLines l).
    rewrite map_app, app_assoc, <- IH. unfold listLines.
    simpl. unfold bind, console_log, emit. simpl.
    rewrite <- !app_assoc. reflexivity.
Qed.

Lemma main_listing (sdk : Sdk) argv env (toolRegistry : Registry) :
  argv_list_tools argv = true ->
  main sdk argv env toolRegistry = (Exited 0, map ConsoleLog (listing toolRegistry)).
Proof. intros Hlist. unfold main. rewrite Hlist, listTools_prints. reflexivity. Qed.

(** C3: the ids [setupTools] returns, and the registrations it makes, are
    those of the registry's entries that pass the test of lines 87-89, in
    the order of the registry: a sub-sequence of the entries that keeps
    every entry passing the test and repeats none.  The listing prints the
    entries in the same order, four lines each after the heading. *)
Theorem C3_registry_order (sdk : Sdk) (toolRegistry : Registry)
  (specified : gset string) (tr : Trace) :
  let chosen :=
    List.filter (fun entry => shouldRegister specified entry.1 entry.2) toolRegistry in
  (forall ids tr',
     setupTools sdk toolRegistry specified tr = (Normal ids, tr') ->
     ids = map fst chosen /\ tr' = tr ++ map registered chosen)
  /\ (accepts sdk (registrations tr) (map (fun entry => registrationOf entry.2) chosen) ->
      setupTools sdk toolRegistry specified tr
      = (Normal (map fst chosen), tr ++ map registered chosen))
  /\ sublist chosen toolRegistry
  /\ (forall entry,
        entry ∈ chosen
        <-> entry ∈ toolRegistry /\ shouldRegister specified entry.1 entry.2 = true)
  /\ (NoDup (map fst toolRegistry) -> NoDup (map fst chosen))
  /\ (forall argv env i id tool,
        argv_list_tools argv = true ->
        toolRegistry !! i = Some (id, tool) ->
        (main sdk argv env toolRegistry).2 !! (1 + 4 * i)
        = Some (ConsoleLog ("- " +:+ id +:+ ": " +:+ name tool))).
Proof.
  intros chosen. change chosen with (selected specified toolRegistry).
  repeat apply conj.
  - apply setupTools_normal.
  - apply setupTools_accepts.
  - apply selected_sublist.
  - apply selected_elem_of.
  - intros Hnodup. apply (sublist_NoDup _ _ Hnodup).
    apply (fmap_sublist fst), selected_sublist.
  - intros argv env i id tool Hlist Hi. rewrite (main_listing _ _ _ _ Hlist).
    unfold snd.
    rewrite list_lookup_fmap, (listing_lookup _ _ _ 0 Hi); [reflexivity|lia].
Qed.

(** C5: outside listing mode and without [EXA_API_KEY], the module throws
    the error [EXA_API_KEY environment variable is required] at its top
    level: the process ends with a non-zero status and nothing has
    happened before, no server is constructed and no tool registered. *)
Theorem C5_missing_key_is_fatal (sdk : Sdk) argv env (toolRegistry : Registry) :
  argv_list_tools argv = false ->
  EXA_API_KEY env = None ->
  main sdk argv env toolRegistry
  = (Uncaught (newError "EXA_API_KEY environment variable is required"), [])
  /\ exitStatus (main sdk argv env toolRegistry).1 = Some 1%Z
  /\ registrations (main sdk argv env toolRegistry).2 = [].
Proof.
  intros Hlist Hkey. unfold main, missingApiKey. rewrite Hlist, Hkey. auto.
Qed.

(** C6: with [--list-tools] the process prints the heading and then, for
    every entry of the registry, its id and name, its description, its
    default flag and an empty line, and exits with status 0.  Neither the
    environment (so not [EXA_API_KEY]) nor the SDK is looked at. *)
Theorem C6_listing_mode (sdk : Sdk) argv env (toolRegistry : Registry) :
  argv_list_tools argv = true ->
  (main sdk argv env toolRegistry).1 = Exited 0
  /\ (main sdk argv env toolRegistry).2 !! 0 = Some (ConsoleLog "Available tools:")
  /\ length (main sdk argv env toolRegistry).2 = 1 + 4 * length toolRegistry
  /\ (forall i id tool,
        toolRegistry !! i = Some (id, tool) ->
        (main sdk argv env toolRegistry).2 !! (1 + 4 * i)
        = Some (ConsoleLog ("- " +:+ id +:+ ": " +:+ name tool))
        /\ (main sdk argv env toolRegistry).2 !! (2 + 4 * i)
           = Some (ConsoleLog ("  Description: " +:+ description tool))
        /\ (main sdk argv env toolRegistry).2 !! (3 + 4 * i)
           = Some (ConsoleLog ("  Enabled by default: "
                               +:+ (if enabled tool then "Yes" else "No")))
        /\ (main sdk argv env toolRegistry).2 !! (4 + 4 * i) = Some (ConsoleLog ""))
  /\ (forall sdk' env',
        main sdk' argv env' toolRegistry = main sdk argv env toolRegistry).
Proof.
  intros Hlist. rewrite (main_listing sdk _ env _ Hlist). unfold fst, snd.
  repeat apply conj; try reflexivity.
  - rewrite length_map. apply listing_length.
  - intros i id tool Hi.
    rewrite !list_lookup_fmap.
    rewrite (listing_lookup _ _ _ 0 Hi), (listing_lookup _ _ _ 1 Hi),
      (listing_lookup _ _ _ 2 Hi), (listing_lookup _ _ _ 3 Hi) by lia.
    repeat split; reflexivity.
  - intros sdk' env'. apply main_listing, Hlist.
Qed.

(** C10: a [--tools] string that is not empty always gives a requested
    set that is not empty, so the test of [setupTools] is membership and
    the [enabled] flags are not used.  When the string holds only commas
    and white space the set is the singleton of the empty string; and
    when no member of the set is a key of the registry, [setupTools]
    registers nothing and returns the empty list.  The set is empty, and
    the defaults apply, only for the empty string. *)
Theorem C10_no_valid_id_bypasses_defaults (sdk : Sdk) argv (toolRegistry : Registry)
  (tr : Trace) :
  argv_tools argv <> "" ->
  0 < size (specifiedTools argv)
  /\ (forall id (tool : Tool),
        shouldRegister (specifiedTools argv) id tool
        = bool_decide (id ∈ specifiedTools argv))
  /\ (onlySeparators (argv_tools argv) = true -> specifiedTools argv = {[ "" ]})
  /\ ((forall id, id ∈ specifiedTools argv -> id ∉ map fst toolRegistry) ->
      setupTools sdk toolRegistry (specifiedTools argv) tr = (Normal [], tr))
  /\ (forall argv', size (specifiedTools argv') = 0 <-> argv_tools argv' = "").
Proof.
  intros Hne.
  assert (0 < size (specifiedTools argv)) as Hsize.
  { destruct (size (specifiedTools argv)) eqn:Hs; [|lia].
    apply specifiedTools_size in Hs. contradiction. }
  repeat apply conj.
  - exact Hsize.
  - intros id tool. unfold shouldRegister.
    destruct (decide (0 < size (specifiedTools argv))); [reflexivity|contradiction].
  - apply specifiedTools_separators, Hne.
  - intros Hnokey. rewrite setupTools_registerEach, (selected_requested _ _ Hsize).
    rewrite filter_none; [reflexivity|].
    apply Forall_forall. intros [id tool] Hin. simpl.
    apply bool_decide_eq_false. intros Hreq. apply (Hnokey id Hreq).
    apply list_elem_of_fmap. exists (id, tool). auto.
  - apply specifiedTools_size.
Qed.

(** *** One transport per run *)

Lemma quiet_app (tr1 tr2 : Trace) : quiet tr1 -> quiet tr2 -> quiet (tr1 ++ tr2).
Proof.
  unfold quiet, constructed, observed, connected.
  intros (G1 & G2 & G3) (H1 & H2 & H3).
  rewrite !omap_app, G1, G2, G3, H1, H2, H3. auto.
Qed.

Lemma quiet_registered (entries : Registry) : quiet (map registered entries).
Proof.
  unfold quiet, constructed, observed, connected.
  induction entries as [|x l (H1 & H2 & H3)]; simpl; auto.
Qed.

Lemma quiet_listing (lines : list string) : quiet (map ConsoleLog lines : Trace).
Proof.
  unfold quiet, constructed, observed, connected.
  induction lines as [|x l (H1 & H2 & H3)]; simpl; auto.
Qed.

Lemma quiet_started : quiet (started : Trace).
Proof. repeat split. Qed.

Ltac solve_quiet :=
  repeat apply quiet_app;
  first [ assumption | apply quiet_started | apply quiet_registered
        | apply quiet_listing | repeat split; reflexivity ].

(** The three shapes the trace of the module can have. *)
Lemma main_shapes (sdk : Sdk) argv env (toolRegistry : Registry) :
  let outcome := (main sdk argv env toolRegistry).1 in
  let tr := (main sdk argv env toolRegistry).2 in
  (quiet tr /\ outcome <> Serving)
  \/ (exists before transport msg usingHttp,
        quiet before /\ outcome = Serving
        /\ tr = before ++ [NewTransport transport; Log msg; SetOnError transport;
                           Connect transport; logRunning usingHttp]
        /\ (transport = StdioServerTransport
            \/ transport = StreamableHTTPServerTransport (selectPort env)))
  \/ (exists before transport msg e,
        quiet before /\ outcome = Exited 1
        /\ tr = before ++ [NewTransport transport; Log msg; SetOnError transport;
                           logInitError e; logFatal e]
        /\ (transport = StdioServerTransport
            \/ transport = StreamableHTTPServerTransport (selectPort env))).
Proof.
  cbv zeta.
  destruct (argv_list_tools argv) eqn:Hlist.
  { left. rewrite (main_listing _ _ _ _ Hlist). split; [solve_quiet|discriminate]. }
  destruct (missingApiKey env) eqn:Hkey.
  { left. unfold main. rewrite Hlist, Hkey. split; [solve_quiet|discriminate]. }
  rewrite (main_server _ _ _ _ Hlist Hkey).
  destruct (new_McpServer sdk) as [e0|].
  { left. split; [solve_quiet|discriminate]. }
  rewrite run_steps.
  destruct (setupTools_trace sdk toolRegistry (specifiedTools argv) started)
    as [entries Htrace].
  destruct (setupTools sdk toolRegistry (specifiedTools argv) started)
    as [[ids|e] tr1]; unfold snd in Htrace; subst tr1.
  2:{ left. split; [solve_quiet|discriminate]. }
  destruct (httpFailure sdk env) as [e1|] eqn:Hhttp.
  - destruct (stdioFailure sdk) as [e2|] eqn:Hstdio.
    + rewrite (selectTransport_none _ _ _ _ _ Hhttp Hstdio). left.
      split; [solve_quiet|discriminate].
    + rewrite (selectTransport_stdio _ _ _ _ Hhttp Hstdio). right.
      destruct (server_connect sdk StdioServerTransport) as [e|]; [right|left].
      * exists (((started ++ map registered entries) ++ [logStarting ids])
                ++ [logHttpFailed e1]), StdioServerTransport, "Using stdio transport", e.
        split; [solve_quiet|]. split; [reflexivity|]. split; [|auto].
        unfold snd. rewrite <- !app_assoc. reflexivity.
      * exists (((started ++ map registered entries) ++ [logStarting ids])
                ++ [logHttpFailed e1]), StdioServerTransport, "Using stdio transport", false.
        split; [solve_quiet|]. split; [reflexivity|]. split; [|auto].
        unfold snd. rewrite <- !app_assoc. reflexivity.
  - rewrite (selectTransport_http _ _ _ Hhttp). right.
    destruct (server_connect sdk _) as [e|]; [right|left].
    + exists ((started ++ map registered entries) ++ [logStarting ids]),
        (StreamableHTTPServerTransport (selectPort env)),
        ("Using Streamable HTTP transport on port " +:+ Js.numberToString (selectPort env)),
        e.
      split; [solve_quiet|]. split; [reflexivity|]. split; [|auto].
      unfold snd. rewrite <- !app_assoc. reflexivity.
    + exists ((started ++ map registered entries) ++ [logStarting ids]),
        (StreamableHTTPServerTransport (selectPort env)),
        ("Using Streamable HTTP transport on port " +:+ Js.numberToString (selectPort env)),
        true.
      split; [solve_quiet|]. split; [reflexivity|]. split; [|auto].
      unfold snd. rewrite <- !app_assoc. reflexivity.
Qed.

Lemma not_constructed (tr : Trace) transport :
  constructed tr = [] -> NewTransport transport ∉ tr.
Proof.
  intros Hnone Hin.
  assert (transport ∈ constructed tr) as Hc.
  { unfold constructed. apply list_elem_of_omap. exists (NewTransport transport). auto. }
  rewrite Hnone in Hc. inversion Hc.
Qed.

(** C4: when the construction of the network transport throws [e], the
    selector logs [e] and goes on to construct the pipe transport.  Its
    result is that of this construction: the pipe transport with
    [usingHttp] false when it succeeds, and otherwise the error the pipe
    construction threw.  So [e] never reaches the caller, and no network
    transport is constructed. *)
Theorem C4_http_failure_falls_back_to_stdio (sdk : Sdk) env (tr : Trace) (e : Thrown) :
  httpFailure sdk env = Some e ->
  selectTransport sdk env tr
  = match stdioFailure sdk with
    | None =>
        (Normal (StdioServerTransport, false),
         tr ++ [logHttpFailed e; NewTransport StdioServerTransport; logUsingStdio])
    | Some e' => (Throw e', tr ++ [logHttpFailed e])
    end
  /\ (stdioFailure sdk = None ->
      (selectTransport sdk env tr).1 = Normal (StdioServerTransport, false))
  /\ (forall e', (selectTransport sdk env tr).1 = Throw e' -> stdioFailure sdk = Some e')
  /\ (exists added,
        (selectTransport sdk env tr).2 = tr ++ logHttpFailed e :: added
        /\ forall port, NewTransport (StreamableHTTPServerTransport port) ∉ added).
Proof.
  intros Hhttp. destruct (stdioFailure sdk) as [e'|] eqn:Hstdio.
  - rewrite (selectTransport_none _ _ _ _ _ Hhttp Hstdio).
    repeat apply conj; [reflexivity|discriminate|intros ? [= ->]; reflexivity|].
    exists []. split; [reflexivity|]. intros port Hin. inversion Hin.
  - rewrite (selectTransport_stdio _ _ _ _ Hhttp Hstdio).
    repeat apply conj; [reflexivity|reflexivity|discriminate|].
    exists [NewTransport StdioServerTransport; logUsingStdio].
    split; [reflexivity|]. intros port Hin.
    apply list_elem_of_In in Hin. simpl in Hin.
    destruct Hin as [Hin|[Hin|[]]]; discriminate.
Qed.

(** C7: once [run] is entered, an exception thrown by [setupTools], by
    the construction of the pipe transport after the network transport
    failed, or by [connect], leaves [run]: [run] logs it and throws it
    again, nothing else is tried, and the module logs it as fatal and
    exits with status 1. *)
Theorem C7_startup_failure_is_fatal (sdk : Sdk) argv env (toolRegistry : Registry) :
  argv_list_tools argv = false ->
  missingApiKey env = false ->
  new_McpServer sdk = None ->
  (forall e tr1,
     setupTools sdk toolRegistry (specifiedTools argv) started = (Throw e, tr1) ->
     run sdk env toolRegistry (specifiedTools argv) started
     = (Throw e, tr1 ++ [logInitError e])
     /\ main sdk argv env toolRegistry = (Exited 1, tr1 ++ [logInitError e; logFatal e]))
  /\ (forall ids tr1 e1 e,
        setupTools sdk toolRegistry (specifiedTools argv) started = (Normal ids, tr1) ->
        httpFailure sdk env = Some e1 ->
        stdioFailure sdk = Some e ->
        run sdk env toolRegistry (specifiedTools argv) started
        = (Throw e, tr1 ++ [logStarting ids; logHttpFailed e1; logInitError e])
        /\ main sdk argv env toolRegistry
           = (Exited 1,
              tr1 ++ [logStarting ids; logHttpFailed e1; logInitError e; logFatal e]))
  /\ (forall ids tr1 transport usingHttp tr2 e,
        setupTools sdk toolRegistry (specifiedTools argv) started = (Normal ids, tr1) ->
        selectTransport sdk env (tr1 ++ [logStarting ids])
        = (Normal (transport, usingHttp), tr2) ->
        server_connect sdk transport = Some e ->
        run sdk env toolRegistry (specifiedTools argv) started
        = (Throw e, tr2 ++ [SetOnError transport; logInitError e])
        /\ main sdk argv env toolRegistry
           = (Exited 1, tr2 ++ [SetOnError transport; logInitError e; logFatal e]))
  /\ (forall e tr,
        run sdk env toolRegistry (specifiedTools argv) started = (Throw e, tr) ->
        main sdk argv env toolRegistry = (Exited 1, tr ++ [logFatal e])
        /\ exitStatus (main sdk argv env toolRegistry).1 = Some 1%Z
        /\ last tr = Some (logInitError e)).
Proof.
  intros Hlist Hkey Hserver.
  rewrite (main_server _ _ _ _ Hlist Hkey), Hserver, run_steps.
  repeat apply conj.
  - intros e tr1 ->. rewrite <- app_assoc. auto.
  - intros ids tr1 e1 e -> Hhttp Hstdio.
    rewrite (selectTransport_none _ _ _ _ _ Hhttp Hstdio), <- !app_assoc. auto.
  - intros ids tr1 transport usingHttp tr2 e -> -> ->. rewrite <- app_assoc. auto.
  - intros e tr.
    destruct (setupTools sdk toolRegistry (specifiedTools argv) started) as [[ids|e0] tr1].
    + destruct (selectTransport sdk env _) as [[[transport usingHttp]|e0] tr2].
      * destruct (server_connect sdk transport) as [e0|]; [|discriminate].
        intros [= -> <-]. repeat split.
        change [SetOnError transport; logInitError e]
          with ([SetOnError transport : Event] ++ [logInitError e]).
        rewrite app_assoc. apply last_snoc.
      * intros [= -> <-]. repeat split. apply last_snoc.
    + intros [= -> <-]. repeat split. apply last_snoc.
Qed.

(** C8: in every run at most one transport is constructed, so never the
    network transport and the pipe transport both; the transports given
    the error observer are the constructed ones, and the transports
    connected to the session are among them.  A run that ends up serving
    has constructed exactly one transport, has attached the observer to
    it and connected it, in this order, and has done nothing afterwards
    but log. *)
Theorem C8_single_transport (sdk : Sdk) argv env (toolRegistry : Registry) :
  let outcome := (main sdk argv env toolRegistry).1 in
  let tr := (main sdk argv env toolRegistry).2 in
  length (constructed tr) <= 1
  /\ (forall port,
        ~ (StreamableHTTPServerTransport port ∈ constructed tr
           /\ StdioServerTransport ∈ constructed tr))
  /\ observed tr = constructed tr
  /\ (connected tr = constructed tr \/ connected tr = [])
  /\ (outcome = Serving ->
      exists before transport usingHttp,
        tr = before ++ [SetOnError transport; Connect transport; logRunning usingHttp]
        /\ constructed before = [transport]
        /\ observed before = [] /\ connected before = []
        /\ constructed tr = [transport]
        /\ observed tr = [transport] /\ connected tr = [transport]).
Proof.
  intros outcome tr.
  assert (forall l : list Transport,
            length l <= 1 ->
            forall port, ~ (StreamableHTTPServerTransport port ∈ l
                            /\ StdioServerTransport ∈ l)) as Hboth.
  { intros [|x [|y l]] Hlen port [H1 H2]; [inversion H1| |simpl in Hlen; lia].
    apply list_elem_of_singleton in H1, H2. congruence. }
  destruct (main_shapes sdk argv env toolRegistry)
    as [[(Hc & Ho & Hn) Hout]
       |[(before & transport & msg & usingHttp & (Hc & Ho & Hn) & Hout & Htr & _)
        |(before & transport & msg & e & (Hc & Ho & Hn) & Hout & Htr & _)]];
    fold outcome in Hout; fold tr in Hc, Ho, Hn || fold tr in Htr.
  - rewrite Hc, Ho, Hn. repeat apply conj; auto.
    intros H. contradiction.
  - assert (constructed tr = [transport] /\ observed tr = [transport]
            /\ connected tr = [transport]) as (Hc' & Ho' & Hn').
    { rewrite Htr. unfold constructed, observed, connected in *.
      rewrite !omap_app, Hc, Ho, Hn. auto. }
    rewrite Hc', Ho', Hn'. repeat apply conj; auto.
    intros _.
    exists (before ++ [NewTransport transport; Log msg]), transport, usingHttp.
    repeat apply conj; try reflexivity.
    + rewrite Htr, <- app_assoc. reflexivity.
    + unfold constructed in *. rewrite omap_app, Hc. reflexivity.
    + unfold observed in *. rewrite omap_app, Ho. reflexivity.
    + unfold connected in *. rewrite omap_app, Hn. reflexivity.
  - assert (constructed tr = [transport] /\ observed tr = [transport]
            /\ connected tr = []) as (Hc' & Ho' & Hn').
    { rewrite Htr. unfold constructed, observed, connected in *.
      rewrite !omap_app, Hc, Ho, Hn. auto. }
    rewrite Hc', Ho', Hn'. repeat apply conj; auto.
    intros H. rewrite H in Hout. discriminate.
Qed.

(** C9, amended: a network transport that is constructed listens on the
    port parsed in base 10 from [PORT] when [PORT] is set and not empty,
    and on port 8080 when [PORT] is unset or empty. *)
Theorem C9_network_port (sdk : Sdk) argv env (toolRegistry : Registry) (port : Js.number) :
  NewTransport (StreamableHTTPServerTransport port) ∈ (main sdk argv env toolRegistry).2 ->
  port = match PORT env with
         | Some p => if decide (p = "") then Js.Int 8080 else Js.parseInt10 p
         | None => Js.Int 8080
         end.
Proof.
  assert (selectPort env
          = match PORT env with
            | Some p => if decide (p = "") then Js.Int 8080 else Js.parseInt10 p
            | None => Js.Int 8080
            end) as <-.
  { unfold selectPort. destruct (PORT env) as [[|c p]|]; reflexivity. }
  assert (forall (before : Trace) transport (rest : Trace),
            constructed before = [] -> constructed rest = [] ->
            transport = StdioServerTransport
            \/ transport = StreamableHTTPServerTransport (selectPort env) ->
            NewTransport (StreamableHTTPServerTransport port)
              ∈ before ++ NewTransport transport :: rest ->
            port = selectPort env) as Hcase.
  { intros before transport rest Hb Hr Ht Hin.
    apply elem_of_app in Hin as [Hin|Hin]; [destruct (not_constructed _ _ Hb Hin)|].
    apply elem_of_cons in Hin as [Heq|Hin]; [|destruct (not_constructed _ _ Hr Hin)].
    injection Heq as Heq. destruct Ht as [->| ->]; congruence. }
  intros Hin.
  destruct (main_shapes sdk argv env toolRegistry)
    as [[(Hq & _) _]
       |[(before & transport & msg & usingHttp & (Hq & _) & _ & Htr & Ht)
        |(before & transport & msg & e & (Hq & _) & _ & Htr & Ht)]].
  - destruct (not_constructed _ _ Hq Hin).
  - rewrite Htr in Hin. refine (Hcase _ _ _ Hq _ Ht Hin). reflexivity.
  - rewrite Htr in Hin. refine (Hcase _ _ _ Hq _ Ht Hin). reflexivity.
Qed.

End Startup.

(** ** The theorems at the sample inputs *)

Example main_stdio_sample :
  main sdkStdioOnly (argvOf " twitter_search , zzz" false) (envOf (Some "key") None)
    sampleRegistry
  = (Serving,
     [ NewMcpServer "exa-search-server" "0.3.10";
       Log "Server initialized";
       ServerTool (registrationOf (sampleTool "twitter_search" "Search tweets" false));
       Log "Starting Exa MCP server with 1 tools: twitter_search";
       Log "[EXA-MCP-DEBUG] Failed to load HTTP transport: {}";
       NewTransport StdioServerTransport;
       Log "Using stdio transport";
       SetOnError StdioServerTransport;
       Connect StdioServerTransport;
       Log "Exa Search MCP server running on stdio (CLI/desktop compatible)" ]).
Proof. vm_compute. reflexivity. Qed.

Example main_http_sample :
  main sdkHttp (argvOf "" false) (envOf (Some "key") (Some "3000")) sampleRegistry
  = (Serving,
     [ NewMcpServer "exa-search-server" "0.3.10";
       Log "Server initialized";
       ServerTool (registrationOf (sampleTool "web_search" "Search the web" true));
       Log "Starting Exa MCP server with 1 tools: web_search";
       NewTransport (StreamableHTTPServerTransport (Js.Int 3000));
       Log "Using Streamable HTTP transport on port 3000";
       SetOnError (StreamableHTTPServerTransport (Js.Int 3000));
       Connect (StreamableHTTPServerTransport (Js.Int 3000));
       Log "Exa Search MCP server running on HTTP (cloud/desktop compatible)" ]).
Proof. vm_compute. reflexivity. Qed.

Example main_listing_sample :
  main sdkStdioOnly (argvOf "" true) (envOf None None) (take 2 sampleRegistry)
  = (Exited 0,
     [ ConsoleLog "Available tools:";
       ConsoleLog "- web_search: web_search";
       ConsoleLog "  Description: Search the web";
       ConsoleLog "  Enabled by default: Yes";
       ConsoleLog "";
       ConsoleLog "- research_paper_search: research_paper_search";
       ConsoleLog "  Description: Search papers";
       ConsoleLog "  Enabled by default: No";
       ConsoleLog "" ]).
Proof. vm_compute. reflexivity. Qed.

Example main_no_transport_sample :
  main sdkNoTransport (argvOf "," false) (envOf (Some "key") None) sampleRegistry
  = (Exited 1,
     [ NewMcpServer "exa-search-server" "0.3.10";
       Log "Server initialized";
       Log "Starting Exa MCP server with 0 tools: ";
       Log "[EXA-MCP-DEBUG] Failed to load HTTP transport: {}";
       Log "Server initialization error: stdin is closed";
       Log "Fatal server error: stdin is closed" ]).
Proof. vm_compute. reflexivity. Qed.

Lemma C1_witness :
  0 < size ({[ "twitter_search"; "zzz" ]} : gset string)
  /\ setupTools sdkStdioOnly sampleRegistry {[ "twitter_search"; "zzz" ]} []
     = (Normal ["twitter_search"],
        [ServerTool (registrationOf (sampleTool "twitter_search" "Search tweets" false))]).
Proof.
  assert (0 < size ({[ "twitter_search"; "zzz" ]} : gset string)) as Hsize
    by (vm_compute; lia).
  split; [exact Hsize|].
  destruct (C1_requested_tools_registered sdkStdioOnly sampleRegistry
              {[ "twitter_search"; "zzz" ]} [] Hsize) as (_ & Haccepts & _).
  apply Haccepts. vm_compute. auto.
Defined.

Lemma C2_witness :
  size (∅ : gset string) = 0
  /\ setupTools sdkStdioOnly sampleRegistry ∅ []
     = (Normal ["web_search"],
        [ServerTool (registrationOf (sampleTool "web_search" "Search the web" true))]).
Proof.
  assert (size (∅ : gset string) = 0) as Hsize by reflexivity.
  split; [exact Hsize|].
  destruct (C2_default_tools_registered sdkStdioOnly sampleRegistry ∅ [] Hsize)
    as (Haccepts & _).
  apply Haccepts. vm_compute. auto.
Defined.

Lemma C3_witness :
  setupTools sdkHttp sampleRegistry {[ "twitter_search"; "web_search" ]} []
  = (Normal ["web_search"; "twitter_search"],
     [ ServerTool (registrationOf (sampleTool "web_search" "Search the web" true));
       ServerTool (registrationOf (sampleTool "twitter_search" "Search tweets" false)) ]).
Proof.
  destruct (C3_registry_order sdkHttp sampleRegistry
              {[ "twitter_search"; "web_search" ]} []) as (_ & Haccepts & _).
  apply Haccepts. vm_compute. auto.
Defined.

Lemma C4_witness :
  httpFailure sdkStdioOnly (envOf (Some "key") None)
  = Some (newError "Cannot find module streamableHttp.js")
  /\ selectTransport sdkStdioOnly (envOf (Some "key") None) []
     = (Normal (StdioServerTransport, false),
        [ logHttpFailed (newError "Cannot find module streamableHttp.js");
          NewTransport StdioServerTransport; logUsingStdio ] : Trace unit unit).
Proof.
  split; [reflexivity|].
  apply (C4_http_failure_falls_back_to_stdio sdkStdioOnly (envOf (Some "key") None) []).
  reflexivity.
Defined.

Lemma C5_witness :
  argv_list_tools (argvOf "web_search" false) = false
  /\ EXA_API_KEY (envOf None None) = None
  /\ main sdkHttp (argvOf "web_search" false) (envOf None None) sampleRegistry
     = (Uncaught (newError "EXA_API_KEY environment variable is required"), []).
Proof.
  split; [reflexivity|]. split; [reflexivity|].
  apply (C5_missing_key_is_fatal sdkHttp (argvOf "web_search" false) (envOf None None)
           sampleRegistry); reflexivity.
Defined.

Lemma C6_witness :
  argv_list_tools (argvOf "" true) = true
  /\ (main sdkHttp (argvOf "" true) (envOf None None) sampleRegistry).1 = Exited 0.
Proof.
  split; [reflexivity|].
  apply (C6_listing_mode sdkHttp (argvOf "" true) (envOf None None) sampleRegistry).
  reflexivity.
Defined.

Lemma C7_witness :
  argv_list_tools (argvOf "" false) = false
  /\ missingApiKey (envOf (Some "key") None) = false
  /\ new_McpServer sdkNoTransport = None
  /\ (main sdkNoTransport (argvOf "" false) (envOf (Some "key") None) sampleRegistry).1
     = Exited 1.
Proof.
  split; [reflexivity|]. split; [reflexivity|]. split; [reflexivity|].
  destruct (C7_startup_failure_is_fatal sdkNoTransport (argvOf "" false)
              (envOf (Some "key") None) sampleRegistry eq_refl eq_refl eq_refl)
    as (_ & Hnone & _).
  destruct (Hnone ["web_search"]
              (started ++ [ServerTool (registrationOf
                                         (sampleTool "web_search" "Search the web" true))])
              (newError "Cannot find module streamableHttp.js")
              (newError "stdin is closed")) as [_ Hmain];
    [vm_compute; reflexivity|reflexivity|reflexivity|].
  rewrite Hmain. reflexivity.
Defined.

Lemma C8_witness :
  (main sdkStdioOnly (argvOf "" false) (envOf (Some "key") None) sampleRegistry).1 = Serving
  /\ exists transport,
       constructed
         (main sdkStdioOnly (argvOf "" false) (envOf (Some "key") None) sampleRegistry).2
       = [transport]
       /\ observed
            (main sdkStdioOnly (argvOf "" false) (envOf (Some "key") None) sampleRegistry).2
          = [transport]
       /\ connected
            (main sdkStdioOnly (argvOf "" false) (envOf (Some "key") None) sampleRegistry).2
          = [transport].
Proof.
  assert ((main sdkStdioOnly (argvOf "" false) (envOf (Some "key") None)
             sampleRegistry).1 = Serving) as Hserving by (vm_compute; reflexivity).
  split; [exact Hserving|].
  destruct (C8_single_transport sdkStdioOnly (argvOf "" false) (envOf (Some "key") None)
              sampleRegistry) as (_ & _ & _ & _ & Hone).
  destruct (Hone Hserving) as (_ & transport & _ & _ & _ & _ & _ & Hc & Ho & Hn).
  exists transport. auto.
Defined.

Lemma C9_witness :
  NewTransport (StreamableHTTPServerTransport (Js.Int 3000))
    ∈ (main sdkHttp (argvOf "" false) (envOf (Some "key") (Some "3000")) sampleRegistry).2
  /\ Js.Int 3000 = Js.parseInt10 "3000".
Proof.
  assert (NewTransport (StreamableHTTPServerTransport (Js.Int 3000))
            ∈ (main sdkHttp (argvOf "" false) (envOf (Some "key") (Some "3000"))
                 sampleRegistry).2) as Hin.
  { rewrite main_http_sample. apply list_elem_of_In. simpl. auto 10. }
  split; [exact Hin|].
  apply (C9_network_port sdkHttp (argvOf "" false) (envOf (Some "key") (Some "3000"))
           sampleRegistry (Js.Int 3000) Hin).
Defined.

(** C9 as stated fails when [PORT] is set to the empty string: the
    network transport listens on 8080, and [parseInt] of the empty string
    is [NaN]. *)
Lemma C9_counterexample :
  ~ (forall port,
       NewTransport (StreamableHTTPServerTransport port)
         ∈ (main sdkHttp (argvOf "" false) (envOf (Some "key") (Some "")) sampleRegistry).2 ->
       port = match PORT (envOf (Some "key") (Some "")) with
              | Some p => Js.parseInt10 p
              | None => Js.Int 8080
              end).
Proof.
  intros H. specialize (H (Js.Int 8080)).
  assert (Js.Int 8080 = Js.NaN) as Habsurd; [|discriminate].
  apply H. apply list_elem_of_In. vm_compute. auto 10.
Qed.

Lemma C10_witness :
  argv_tools (argvOf " , " false) <> ""
  /\ specifiedTools (argvOf " , " false) = {[ "" ]}
  /\ setupTools sdkHttp sampleRegistry (specifiedTools (argvOf " , " false)) []
     = (Normal [], []).
Proof.
  assert (argv_tools (argvOf " , " false) <> "") as Hne by discriminate.
  split; [exact Hne|].
  destruct (C10_no_valid_id_bypasses_defaults sdkHttp (argvOf " , " false)
              sampleRegistry [] Hne) as (_ & _ & Hsep & Hnone & _).
  specialize (Hsep eq_refl).
  split; [exact Hsep|].
  apply Hnone. intros id Hid. rewrite Hsep in Hid.
  apply elem_of_singleton in Hid. subst id.
  intros Hin. apply list_elem_of_In in Hin. simpl in Hin.
  destruct Hin as [Hin|[Hin|[Hin|[]]]]; discriminate.
Defined.

(** ** Further properties of the start-up *)

Section Further.

Context {Schema Handler : Type}.

Local Abbreviation Tool := (Tool Schema Handler).
Local Abbreviation Registry := (Registry Schema Handler).
Local Abbreviation Event := (Event Schema Handler).
Local Abbreviation Trace := (Trace Schema Handler).
Local Abbreviation Sdk := (Sdk Schema Handler).

(** The module once [setupTools] has returned. *)
Lemma main_past_setup (sdk : Sdk) argv env (toolRegistry : Registry) ids tr1 :
  argv_list_tools argv = false -> missingApiKey env = false ->
  new_McpServer sdk = None ->
  setupTools sdk toolRegistry (specifiedTools argv) started = (Normal ids, tr1) ->
  main sdk argv env toolRegistry =
  match httpFailure sdk env, stdioFailure sdk with
  | None, _ =>
      let transport := StreamableHTTPServerTransport (selectPort env) in
      match server_connect sdk transport with
      | None =>
          (Serving,
           tr1 ++ [logStarting ids; NewTransport transport; logUsingHttp (selectPort env);
                   SetOnError transport; Connect transport; logRunning true])
      | Some e =>
          (Exited 1,
           tr1 ++ [logStarting ids; NewTransport transport; logUsingHttp (selectPort env);
                   SetOnError transport; logInitError e; logFatal e])
      end
  | Some e1, None =>
      match server_connect sdk StdioServerTransport with
      | None =>
          (Serving,
           tr1 ++ [logStarting ids; logHttpFailed e1; NewTransport StdioServerTransport;
                   logUsingStdio; SetOnError StdioServerTransport;
                   Connect StdioServerTransport; logRunning false])
      | Some e =>
          (Exited 1,
           tr1 ++ [logStarting ids; logHttpFailed e1; NewTransport StdioServerTransport;
                   logUsingStdio; SetOnError StdioServerTransport;
                   logInitError e; logFatal e])
      end
  | Some e1, Some e2 =>
      (Exited 1, tr1 ++ [logStarting ids; logHttpFailed e1; logInitError e2; logFatal e2])
  end.
Proof.
  intros Hlist Hkey Hserver Hsetup.
  rewrite (main_server _ _ _ _ Hlist Hkey), Hserver, run_steps, Hsetup.
  destruct (httpFailure sdk env) as [e1|] eqn:Hhttp.
  - destruct (stdioFailure sdk) as [e2|] eqn:Hstdio.
    + rewrite (selectTransport_none _ _ _ _ _ Hhttp Hstdio), <- !app_assoc. reflexivity.
    + rewrite (selectTransport_stdio _ _ _ _ Hhttp Hstdio).
      destruct (server_connect sdk StdioServerTransport); rewrite <- !app_assoc; reflexivity.
  - rewrite (selectTransport_http _ _ _ Hhttp). cbv zeta.
    destruct (server_connect sdk _); rewrite <- !app_assoc; reflexivity.
Qed.

(** The module when [setupTools] throws. *)
Lemma main_setup_throws (sdk : Sdk) argv env (toolRegistry : Registry) e tr1 :
  argv_list_tools argv = false -> missingApiKey env = false ->
  new_McpServer sdk = None ->
  setupTools sdk toolRegistry (specifiedTools argv) started = (Throw e, tr1) ->
  main sdk argv env toolRegistry = (Exited 1, tr1 ++ [logInitError e; logFatal e]).
Proof.
  intros Hlist Hkey Hserver Hsetup.
  rewrite (main_server _ _ _ _ Hlist Hkey), Hserver, run_steps, Hsetup, <- app_assoc.
  reflexivity.
Qed.





(** X3: the process ends up serving exactly when it is outside listing
    mode, has a credential, the session is constructed, [setupTools]
    returns, one of the two transports can be constructed (the network
    one first) and [connect] accepts it. *)
Theorem X3_serving_iff (sdk : Sdk) argv env (toolRegistry : Registry) :
  (main sdk argv env toolRegistry).1 = Serving
  <-> argv_list_tools argv = false
      /\ missingApiKey env = false
      /\ new_McpServer sdk = None
      /\ (exists ids tr1,
            setupTools sdk toolRegistry (specifiedTools argv) started = (Normal ids, tr1))
      /\ (exists transport,
            chosenTransport sdk env = Some transport
            /\ server_connect sdk transport = None).
Proof.
  unfold chosenTransport. split.
  - intros Hout. destruct (argv_list_tools argv) eqn:Hlist.
    { rewrite (main_listing _ _ _ _ Hlist) in Hout. discriminate. }
    destruct (missingApiKey env) eqn:Hkey.
    { unfold main in Hout. rewrite Hlist, Hkey in Hout. discriminate. }
    destruct (new_McpServer sdk) as [e0|] eqn:Hserver.
    { rewrite (main_server _ _ _ _ Hlist Hkey), Hserver in Hout. discriminate. }
    destruct (setupTools sdk toolRegistry (specifiedTools argv) started)
      as [[ids|e] tr1] eqn:Hsetup.
    2:{ rewrite (main_setup_throws _ _ _ _ _ _ Hlist Hkey Hserver Hsetup) in Hout.
        discriminate. }
    rewrite (main_past_setup _ _ _ _ _ _ Hlist Hkey Hserver Hsetup) in Hout.
    repeat split; eauto.
    destruct (httpFailure sdk env) as [e1|]; [destruct (stdioFailure sdk) as [e2|]|].
    + discriminate.
    + exists StdioServerTransport.
      destruct (server_connect sdk StdioServerTransport); [discriminate|auto].
    + exists (StreamableHTTPServerTransport (selectPort env)). cbv zeta in Hout.
      destruct (server_connect sdk _); [discriminate|auto].
  - intros (Hlist & Hkey & Hserver & (ids & tr1 & Hsetup) & transport & Hchosen & Hconnect).
    rewrite (main_past_setup _ _ _ _ _ _ Hlist Hkey Hserver Hsetup).
    destruct (httpFailure sdk env) as [e1|]; [destruct (stdioFailure sdk) as [e2|]|].
    + discriminate.
    + injection Hchosen as <-. rewrite Hconnect. reflexivity.
    + injection Hchosen as <-. cbv zeta. rewrite Hconnect. reflexivity.
Qed.

(** X4: a transport is connected to the session only in a run that ends
    up serving: a run that exits, whatever the reason, has connected
    none. *)
Theorem X4_connected_iff_serving (sdk : Sdk) argv env (toolRegistry : Registry) :
  connected (main sdk argv env toolRegistry).2 <> []
  <-> (main sdk argv env toolRegistry).1 = Serving.
Proof.
  destruct (main_shapes sdk argv env toolRegistry)
    as [[(_ & _ & Hn) Hout]
       |[(before & transport & msg & usingHttp & (_ & _ & Hn) & Hout & Htr & _)
        |(before & transport & msg & e & (_ & _ & Hn) & Hout & Htr & _)]].
  - rewrite Hn. split; [congruence|contradiction].
  - rewrite Htr, Hout. unfold connected in *. rewrite omap_app, Hn.
    split; [reflexivity|discriminate].
  - rewrite Htr, Hout. unfold connected in *. rewrite omap_app, Hn. simpl.
    split; [congruence|discriminate].
Qed.


Lemma quiet_no_transport_event (tr : Trace) j ev :
  quiet tr -> tr !! j = Some ev -> isTransportEvent ev = false.
Proof.
  intros (Hc & Ho & Hn) Hj.
  assert (ev ∈ tr) as Hin by (apply list_elem_of_lookup; eauto).
  destruct ev as [| | | |t|t|t]; try reflexivity; exfalso.
  - assert (t ∈ constructed tr) as H
      by (apply list_elem_of_omap; exists (NewTransport t); auto).
    rewrite Hc in H. inversion H.
  - assert (t ∈ observed tr) as H
      by (apply list_elem_of_omap; exists (SetOnError t); auto).
    rewrite Ho in H. inversion H.
  - assert (t ∈ connected tr) as H
      by (apply list_elem_of_omap; exists (Connect t); auto).
    rewrite Hn in H. inversion H.
Qed.

(** X6: every tool is registered before anything is done with a
    transport: in the trace of a run each [server.tool] call comes before
    the construction of the transport, the assignment of [onerror] and
    [connect]. *)
Theorem X6_registration_precedes_transport (sdk : Sdk) argv env (toolRegistry : Registry)
  (i j : nat) (r : Registration Schema Handler) (ev : Event) :
  (main sdk argv env toolRegistry).2 !! i = Some (ServerTool r) ->
  (main sdk argv env toolRegistry).2 !! j = Some ev ->
  isTransportEvent ev = true ->
  i < j.
Proof.
  assert (forall (before tail : Trace),
            quiet before ->
            (forall k r', tail !! k <> Some (ServerTool r')) ->
            (before ++ tail) !! i = Some (ServerTool r) ->
            (before ++ tail) !! j = Some ev ->
            isTransportEvent ev = true -> i < j) as Hcase.
  { intros before tail Hq Htail Hi Hj Hev.
    apply lookup_app_Some in Hi as [Hi|[_ Hi]]; [|destruct (Htail _ _ Hi)].
    apply lookup_lt_Some in Hi.
    apply lookup_app_Some in Hj as [Hj|[Hj _]]; [|lia].
    rewrite (quiet_no_transport_event _ _ _ Hq Hj) in Hev. discriminate. }
  destruct (main_shapes sdk argv env toolRegistry)
    as [[Hq _]
       |[(before & transport & msg & usingHttp & Hq & _ & Htr & _)
        |(before & transport & msg & e & Hq & _ & Htr & _)]].
  - intros _ Hj Hev. rewrite (quiet_no_transport_event _ _ _ Hq Hj) in Hev. discriminate.
  - rewrite Htr. apply (Hcase _ _ Hq). intros k r' Hk.
    destruct k as [|[|[|[|[|k]]]]]; discriminate.
  - rewrite Htr. apply (Hcase _ _ Hq). intros k r' Hk.
    destruct k as [|[|[|[|[|k]]]]]; discriminate.
Qed.

(** X7: when [setupTools] returns, the next line of the log gives the
    number of registered tools, and this is the number of tools the
    session holds for the rest of the run: nothing is registered later. *)
Theorem X7_logged_count_is_session_size (sdk : Sdk) argv env (toolRegistry : Registry)
  ids tr1 :
  argv_list_tools argv = false -> missingApiKey env = false ->
  new_McpServer sdk = None ->
  setupTools sdk toolRegistry (specifiedTools argv) started = (Normal ids, tr1) ->
  (exists rest,
     (main sdk argv env toolRegistry).2 = tr1 ++ logStarting ids :: rest
     /\ registrations rest = [])
  /\ length (registrations (main sdk argv env toolRegistry).2) = length ids.
Proof.
  intros Hlist Hkey Hserver Hsetup.
  assert (exists rest,
            (main sdk argv env toolRegistry).2 = tr1 ++ logStarting ids :: rest
            /\ registrations rest = []) as Hrest.
  { rewrite (main_past_setup _ _ _ _ _ _ Hlist Hkey Hserver Hsetup).
    destruct (httpFailure sdk env) as [e1|]; [destruct (stdioFailure sdk) as [e2|]|];
      cbv zeta; try destruct (server_connect sdk _);
      unfold snd; eexists; (split; [reflexivity|]); try destruct usingHttp; reflexivity. }
  split; [exact Hrest|].
  destruct Hrest as (rest & -> & Hnone).
  apply setupTools_normal in Hsetup as [-> ->].
  change (logStarting ?x :: rest) with ([logStarting x : Event] ++ rest).
  rewrite !registrations_app, registrations_registered, Hnone.
  simpl. rewrite app_nil_r, !length_map. reflexivity.
Qed.

(** X8: in a run that ends up serving, the last line of the log names
    the transport that is connected: HTTP for the network transport,
    stdio for the pipe transport. *)
Theorem X8_running_line_names_transport (sdk : Sdk) argv env (toolRegistry : Registry) :
  (main sdk argv env toolRegistry).1 = Serving ->
  exists transport,
    connected (main sdk argv env toolRegistry).2 = [transport]
    /\ last (main sdk argv env toolRegistry).2 = Some (logRunning (isHttp transport)).
Proof.
  intros Hout.
  destruct (argv_list_tools argv) eqn:Hlist.
  { rewrite (main_listing _ _ _ _ Hlist) in Hout. discriminate. }
  destruct (missingApiKey env) eqn:Hkey.
  { unfold main in Hout. rewrite Hlist, Hkey in Hout. discriminate. }
  destruct (new_McpServer sdk) as [e0|] eqn:Hserver.
  { rewrite (main_server _ _ _ _ Hlist Hkey), Hserver in Hout. discriminate. }
  destruct (setupTools sdk toolRegistry (specifiedTools argv) started)
    as [[ids|e] tr1] eqn:Hsetup.
  2:{ rewrite (main_setup_throws _ _ _ _ _ _ Hlist Hkey Hserver Hsetup) in Hout.
      discriminate. }
  rewrite (main_past_setup _ _ _ _ _ _ Hlist Hkey Hserver Hsetup) in Hout |- *.
  apply setupTools_normal in Hsetup as [_ ->].
  assert (connected (started ++ map registered
                       (selected (specifiedTools argv) toolRegistry) : Trace) = [])
    as Hquiet.
  { apply (quiet_app _ _ quiet_started (quiet_registered _)). }
  destruct (httpFailure sdk env) as [e1|]; [destruct (stdioFailure sdk) as [e2|]|];
    cbv zeta in *; try discriminate;
    (destruct (server_connect sdk _); [discriminate|]);
    eexists; unfold snd, connected in *; rewrite omap_app, Hquiet;
    (split; [reflexivity|]).
  - apply last_Some. eexists. apply (app_assoc _ [_; _; _; _; _; _] [_]).
  - apply last_Some. eexists. apply (app_assoc _ [_; _; _; _; _] [_]).
Qed.

(** X9: when the network transport can be constructed the pipe transport
    is never touched: whether its import or its constructor would throw
    changes nothing in the run. *)
Theorem X9_stdio_untouched_when_http_works (sdk : Sdk) argv env (toolRegistry : Registry)
  (import new : option Thrown) :
  httpFailure sdk env = None ->
  main (withStdio sdk import new) argv env toolRegistry = main sdk argv env toolRegistry.
Proof.
  intros Hhttp.
  destruct (argv_list_tools argv) eqn:Hlist.
  { rewrite !(main_listing _ _ _ _ Hlist). reflexivity. }
  destruct (missingApiKey env) eqn:Hkey.
  { unfold main. rewrite Hlist, Hkey. reflexivity. }
  rewrite !(main_server _ _ _ _ Hlist Hkey), !run_steps.
  change (new_McpServer (withStdio sdk import new)) with (new_McpServer sdk).
  change (setupTools (withStdio sdk import new)) with (setupTools sdk).
  destruct (new_McpServer sdk); [reflexivity|].
  destruct (setupTools sdk toolRegistry (specifiedTools argv) started) as [[ids|e] tr1];
    [|reflexivity].
  rewrite (selectTransport_http sdk _ _ Hhttp).
  rewrite (selectTransport_http (withStdio sdk import new) _ _ Hhttp).
  reflexivity.
Qed.

(** X10: when the construction of the session throws, the process logs
    the error as fatal and exits with status 1; no tool is registered and
    no transport is constructed. *)
Theorem X10_session_failure_is_fatal (sdk : Sdk) argv env (toolRegistry : Registry)
  (e : Thrown) :
  argv_list_tools argv = false -> missingApiKey env = false ->
  new_McpServer sdk = Some e ->
  main sdk argv env toolRegistry = (Exited 1, [logFatal e]).
Proof.
  intros Hlist Hkey Hserver. rewrite (main_server _ _ _ _ Hlist Hkey), Hserver.
  reflexivity.
Qed.


End Further.

(** ** Further properties of the [--tools] string *)

Lemma append_cons c a b : String c a +:+ b = String c (a +:+ b).
Proof. reflexivity. Qed.

Lemma append_nil_l a : "" +:+ a = a.
Proof. reflexivity. Qed.

Lemma append_nonempty_l a b : a <> "" -> a +:+ b <> "".
Proof. destruct a; [congruence|discriminate]. Qed.

Lemma append_nonempty_r a b : b <> "" -> a +:+ b <> "".
Proof. destruct a; [auto|discriminate]. Qed.

Lemma whiteSpace_not_comma c : Js.isWhiteSpace c = true -> Ascii.eqb c "," = false.
Proof.
  intros Hws. destruct (Ascii.eqb_spec c ",") as [->|]; [discriminate|reflexivity].
Qed.

Lemma split_app_sep sep a b :
  Js.split sep (a +:+ String sep b) = Js.split sep a ++ Js.split sep b.
Proof.
  induction a as [|c a IH].
  - simpl. rewrite Ascii.eqb_refl. reflexivity.
  - rewrite append_cons. simpl. destruct (Ascii.eqb c sep).
    + rewrite IH. reflexivity.
    + rewrite IH. pose proof (split_nonempty sep a) as Hne.
      destruct (Js.split sep a) as [|p ps]; [congruence|reflexivity].
Qed.

Lemma split_onlyWhiteSpace w : onlyWhiteSpace w = true -> Js.split "," w = [w].
Proof.
  induction w as [|c w IH]; [reflexivity|]. simpl.
  intros [Hc Hw]%andb_prop. rewrite (whiteSpace_not_comma _ Hc), (IH Hw). reflexivity.
Qed.

Lemma split_whiteSpace_l w s :
  onlyWhiteSpace w = true ->
  Js.split "," (w +:+ s)
  = match Js.split "," s with p :: ps => (w +:+ p) :: ps | [] => [] end.
Proof.
  intros Hw. pose proof (split_nonempty "," s) as Hne.
  induction w as [|c w IH].
  - rewrite append_nil_l. destruct (Js.split "," s); [congruence|reflexivity].
  - simpl in Hw. apply andb_prop in Hw as [Hc Hw]. rewrite append_cons. simpl.
    rewrite (whiteSpace_not_comma _ Hc), (IH Hw).
    destruct (Js.split "," s); [congruence|reflexivity].
Qed.

Lemma split_whiteSpace_r w s :
  onlyWhiteSpace w = true ->
  exists ps p,
    Js.split "," s = ps ++ [p] /\ Js.split "," (s +:+ w) = ps ++ [p +:+ w].
Proof.
  intros Hw. induction s as [|c s (ps & p & Hs & Hsw)].
  - exists [], "". split; [reflexivity|]. apply (split_onlyWhiteSpace _ Hw).
  - rewrite append_cons. simpl. rewrite Hs, Hsw. destruct (Ascii.eqb c ",").
    + exists ("" :: ps), p. auto.
    + destruct ps as [|q ps]; simpl.
      * exists [], (String c p). auto.
      * exists (String c q :: ps), p. auto.
Qed.

Lemma trimStart_onlyWhiteSpace w : onlyWhiteSpace w = true -> Js.trimStart w = "".
Proof.
  induction w as [|c w IH]; [reflexivity|]. simpl.
  intros [Hc Hw]%andb_prop. rewrite Hc. auto.
Qed.

Lemma trimEnd_onlyWhiteSpace w : onlyWhiteSpace w = true -> Js.trimEnd w = "".
Proof.
  induction w as [|c w IH]; [reflexivity|]. simpl.
  intros [Hc Hw]%andb_prop. rewrite (IH Hw), Hc. reflexivity.
Qed.

Lemma trimEnd_append_whiteSpace w s :
  onlyWhiteSpace w = true -> Js.trimEnd (s +:+ w) = Js.trimEnd s.
Proof.
  intros Hw. induction s as [|c s IH].
  - apply (trimEnd_onlyWhiteSpace _ Hw).
  - rewrite append_cons. simpl. rewrite IH. reflexivity.
Qed.

Lemma trim_whiteSpace_l w s : onlyWhiteSpace w = true -> Js.trim (w +:+ s) = Js.trim s.
Proof.
  intros Hw. unfold Js.trim. f_equal. induction w as [|c w IH]; [reflexivity|].
  simpl in Hw. apply andb_prop in Hw as [Hc Hw]. rewrite append_cons. simpl.
  rewrite Hc. auto.
Qed.

Lemma trim_whiteSpace_r w s : onlyWhiteSpace w = true -> Js.trim (s +:+ w) = Js.trim s.
Proof.
  intros Hw. unfold Js.trim. induction s as [|c s IH].
  - rewrite append_nil_l, (trimStart_onlyWhiteSpace _ Hw). reflexivity.
  - rewrite append_cons. simpl. destruct (Js.isWhiteSpace c); [exact IH|].
    apply (trimEnd_append_whiteSpace w (String c s) Hw).
Qed.

Lemma trimStart_headTrimmed s : headTrimmed (Js.trimStart s) = true.
Proof.
  induction s as [|c s IH]; [reflexivity|]. simpl.
  destruct (Js.isWhiteSpace c) eqn:Hc; [exact IH|]. simpl. rewrite Hc. reflexivity.
Qed.

Lemma trimStart_fixed s : headTrimmed s = true -> Js.trimStart s = s.
Proof.
  destruct s as [|c s]; [reflexivity|]. simpl.
  destruct (Js.isWhiteSpace c); [discriminate|reflexivity].
Qed.

Lemma trimEnd_headTrimmed s : headTrimmed s = true -> headTrimmed (Js.trimEnd s) = true.
Proof.
  destruct s as [|c s]; [reflexivity|]. simpl. intros Hc.
  destruct (Js.trimEnd s); [|exact Hc].
  destruct (Js.isWhiteSpace c) eqn:Hws; [discriminate|].
  simpl. rewrite Hws. reflexivity.
Qed.

Lemma trimEnd_idempotent s : Js.trimEnd (Js.trimEnd s) = Js.trimEnd s.
Proof.
  induction s as [|c s IH]; [reflexivity|]. simpl.
  destruct (Js.trimEnd s) as [|d r] eqn:Hr.
  - destruct (Js.isWhiteSpace c) eqn:Hc; [reflexivity|]. simpl. rewrite Hc. reflexivity.
  - change (Js.trimEnd (String c (String d r)))
      with (match Js.trimEnd (String d r) with
            | EmptyString =>
                if Js.isWhiteSpace c then EmptyString else String c EmptyString
            | r' => String c r'
            end).
    rewrite IH. reflexivity.
Qed.

Lemma trim_idempotent s : Js.trim (Js.trim s) = Js.trim s.
Proof.
  unfold Js.trim.
  rewrite (trimStart_fixed (Js.trimEnd (Js.trimStart s))).
  - apply trimEnd_idempotent.
  - apply trimEnd_headTrimmed, trimStart_headTrimmed.
Qed.

Lemma split_noComma s : Forall (fun p => noComma p = true) (Js.split "," s).
Proof.
  induction s as [|c s IH]; simpl; [repeat constructor|].
  destruct (Ascii.eqb c ",") eqn:Hc; [constructor; [reflexivity|exact IH]|].
  destruct (Js.split "," s) as [|p ps]; [repeat constructor; simpl; rewrite Hc; reflexivity|].
  inversion IH as [|? ? Hp Hps]; subst. constructor; [|exact Hps].
  simpl. rewrite Hc, Hp. reflexivity.
Qed.

Lemma trimStart_noComma s : noComma s = true -> noComma (Js.trimStart s) = true.
Proof.
  induction s as [|c s IH]; [reflexivity|]. intros Hs. simpl.
  destruct (Js.isWhiteSpace c); [|exact Hs].
  simpl in Hs. apply andb_prop in Hs as [_ Hs]. auto.
Qed.

Lemma trimEnd_noComma s : noComma s = true -> noComma (Js.trimEnd s) = true.
Proof.
  induction s as [|c s IH]; [reflexivity|]. simpl.
  intros [Hc Hs]%andb_prop. specialize (IH Hs).
  destruct (Js.trimEnd s) as [|d r].
  - destruct (Js.isWhiteSpace c); [reflexivity|]. simpl. rewrite Hc. reflexivity.
  - simpl in *. rewrite Hc. exact IH.
Qed.

(** X12: the requested set of [a,b] is the union of the requested sets of
    [a] and of [b], for non-empty [a] and [b]; so neither the order of
    the ids in [--tools] nor their repetition matters. *)
Theorem X12_tools_string_union (a b : string) (l l1 l2 : bool) :
  a <> "" -> b <> "" ->
  specifiedTools {| argv_tools := a +:+ "," +:+ b; argv_list_tools := l |}
  = specifiedTools {| argv_tools := a; argv_list_tools := l1 |}
    ∪ specifiedTools {| argv_tools := b; argv_list_tools := l2 |}
  /\ specifiedTools {| argv_tools := a +:+ "," +:+ b; argv_list_tools := l |}
     = specifiedTools {| argv_tools := b +:+ "," +:+ a; argv_list_tools := l |}
  /\ specifiedTools {| argv_tools := a +:+ "," +:+ a; argv_list_tools := l |}
     = specifiedTools {| argv_tools := a; argv_list_tools := l |}.
Proof.
  intros Ha Hb.
  assert (forall x y lx ly lxy, x <> "" -> y <> "" ->
            specifiedTools {| argv_tools := x +:+ "," +:+ y; argv_list_tools := lxy |}
            = specifiedTools {| argv_tools := x; argv_list_tools := lx |}
              ∪ specifiedTools {| argv_tools := y; argv_list_tools := ly |}) as Hunion.
  { intros x y lx ly lxy Hx Hy.
    rewrite !specifiedTools_nonempty; simpl; try assumption;
      [|apply append_nonempty_l, Hx].
    change ("," +:+ y) with (String "," y).
    rewrite split_app_sep, map_app. apply list_to_set_app_L. }
  repeat split.
  - apply Hunion; assumption.
  - rewrite (Hunion a b l l l Ha Hb), (Hunion b a l l l Hb Ha). apply (comm_L (∪)).
  - rewrite (Hunion a a l l l Ha Ha). apply (idemp_L (∪)).
Qed.

(** X13: white space before and after the [--tools] string, and around
    its commas, is ignored: the requested set is the same. *)
Theorem X13_tools_string_padding (a b w1 w2 : string) (l : bool) :
  a <> "" ->
  onlyWhiteSpace w1 = true -> onlyWhiteSpace w2 = true ->
  specifiedTools {| argv_tools := w1 +:+ a +:+ w2; argv_list_tools := l |}
  = specifiedTools {| argv_tools := a; argv_list_tools := l |}
  /\ (b <> "" ->
      specifiedTools
        {| argv_tools := (a +:+ w1) +:+ "," +:+ (w2 +:+ b); argv_list_tools := l |}
      = specifiedTools {| argv_tools := a +:+ "," +:+ b; argv_list_tools := l |}).
Proof.
  intros Ha Hw1 Hw2.
  assert (forall x, map Js.trim (Js.split "," (x +:+ w2)) = map Js.trim (Js.split "," x))
    as Hright.
  { intros x. destruct (split_whiteSpace_r w2 x Hw2) as (ps & p & -> & ->).
    rewrite !map_app. simpl. rewrite (trim_whiteSpace_r _ _ Hw2). reflexivity. }
  assert (forall x, map Js.trim (Js.split "," (w1 +:+ x)) = map Js.trim (Js.split "," x))
    as Hleft.
  { intros x. rewrite (split_whiteSpace_l _ _ Hw1).
    destruct (Js.split "," x) as [|p ps]; [reflexivity|].
    simpl. rewrite (trim_whiteSpace_l _ _ Hw1). reflexivity. }
  split.
  - rewrite !specifiedTools_nonempty; simpl;
      [|exact Ha|apply append_nonempty_r, append_nonempty_l, Ha].
    rewrite Hleft, Hright. reflexivity.
  - intros Hb.
    rewrite !specifiedTools_nonempty; simpl;
      [|apply append_nonempty_l, Ha|apply append_nonempty_l, append_nonempty_l, Ha].
    change ("," +:+ (w2 +:+ b)) with (String "," (w2 +:+ b)).
    change ("," +:+ b) with (String "," b).
    rewrite !split_app_sep, !map_app.
    destruct (split_whiteSpace_r w1 a Hw1) as (ps & p & -> & ->).
    rewrite !map_app. simpl. rewrite (trim_whiteSpace_r _ _ Hw1).
    rewrite (split_whiteSpace_l _ _ Hw2).
    pose proof (split_nonempty "," b) as Hne.
    destruct (Js.split "," b) as [|q qs]; [congruence|].
    simpl. rewrite (trim_whiteSpace_l _ _ Hw2). reflexivity.
Qed.

Section FurtherEnablement.

Context {Schema Handler : Type}.

Local Abbreviation Tool := (Tool Schema Handler).
Local Abbreviation Registry := (Registry Schema Handler).
Local Abbreviation Trace := (Trace Schema Handler).
Local Abbreviation Sdk := (Sdk Schema Handler).

Lemma specifiedTools_elem_of argv id :
  id ∈ specifiedTools argv
  <-> argv_tools argv <> ""
      /\ id ∈ map Js.trim (Js.split "," (argv_tools argv)).
Proof.
  destruct (decide (argv_tools argv = "")) as [Heq|Hne].
  - assert (specifiedTools argv = ∅) as ->.
    { unfold specifiedTools. rewrite toolsString_id, Heq. reflexivity. }
    split; [intros H; destruct (not_elem_of_empty _ H)|intros [H _]; contradiction].
  - rewrite (specifiedTools_nonempty _ Hne), elem_of_list_to_set. split; [auto|tauto].
Qed.

(** X14: every requested id is trimmed and holds no comma.  So an entry
    of the registry whose id has white space at an end, or a comma,
    cannot be requested: with a non-empty [--tools] string the test of
    [setupTools] is false for it, whatever the string. *)
Theorem X14_requested_ids_are_trimmed argv :
  (forall id, id ∈ specifiedTools argv -> Js.trim id = id /\ noComma id = true)
  /\ (forall toolId (tool : Tool),
        argv_tools argv <> "" ->
        Js.trim toolId <> toolId \/ noComma toolId = false ->
        shouldRegister (specifiedTools argv) toolId tool = false).
Proof.
  assert (forall id, id ∈ specifiedTools argv -> Js.trim id = id /\ noComma id = true)
    as Htrimmed.
  { intros id [_ Hin]%specifiedTools_elem_of.
    apply list_elem_of_fmap in Hin as (piece & -> & Hpiece).
    split; [apply trim_idempotent|].
    apply trimEnd_noComma, trimStart_noComma.
    pose proof (split_noComma (argv_tools argv)) as Hall.
    rewrite Forall_forall in Hall. apply Hall, Hpiece. }
  split; [exact Htrimmed|].
  intros toolId tool Hne Hbad. unfold shouldRegister.
  destruct (decide (0 < size (specifiedTools argv))) as [_|Hsize].
  - apply bool_decide_eq_false. intros Hin. destruct (Htrimmed _ Hin) as [Ht Hc].
    destruct Hbad as [Hbad|Hbad]; congruence.
  - exfalso. apply Hsize. destruct (size (specifiedTools argv)) eqn:Hs; [|lia].
    apply specifiedTools_size in Hs. contradiction.
Qed.

(** X15: only the requested ids that are keys of the registry count, as
    long as there is one: [setupTools] does the same with the requested
    set and with its intersection with the keys when this intersection
    is not empty.  (When it is empty the intersection would select the
    defaults, the requested set nothing.) *)
Theorem X15_requested_set_restricted_to_keys (sdk : Sdk) (toolRegistry : Registry)
  (requested : gset string) (tr : Trace) :
  0 < size (requested ∩ list_to_set (map fst toolRegistry)) ->
  setupTools sdk toolRegistry (requested ∩ list_to_set (map fst toolRegistry)) tr
  = setupTools sdk toolRegistry requested tr.
Proof.
  intros Hsize.
  assert (0 < size requested) as Hsize'.
  { assert (size (requested ∩ list_to_set (map fst toolRegistry)) <= size requested);
      [|lia].
    apply subseteq_size, intersection_subseteq_l. }
  rewrite !setupTools_registerEach. f_equal.
  rewrite (selected_requested _ _ Hsize), (selected_requested _ _ Hsize').
  apply List.filter_ext_in. intros [id tool] Hin. simpl.
  apply bool_decide_ext. rewrite elem_of_intersection, elem_of_list_to_set.
  split; [tauto|]. intros Hreq. split; [exact Hreq|].
  apply list_elem_of_fmap. exists (id, tool). split; [reflexivity|].
  apply list_elem_of_In, Hin.
Qed.

(** X16: from the command line to the session.  In a run in which
    [setupTools] returns, the tools the session holds at the end are, in
    the order of the registry, the entries enabled by default when the
    [--tools] string is empty, and otherwise the entries whose id is a
    trimmed piece of that string. *)
Theorem X16_session_tools_from_command_line (sdk : Sdk) argv env
  (toolRegistry : Registry) ids tr1 :
  argv_list_tools argv = false -> missingApiKey env = false ->
  new_McpServer sdk = None ->
  setupTools sdk toolRegistry (specifiedTools argv) started = (Normal ids, tr1) ->
  registrations (main sdk argv env toolRegistry).2
  = map (fun entry => registrationOf entry.2)
      (List.filter
         (fun entry =>
            if decide (argv_tools argv = "") then enabled entry.2
            else bool_decide (entry.1 ∈ map Js.trim (Js.split "," (argv_tools argv))))
         toolRegistry).
Proof.
  intros Hlist Hkey Hserver Hsetup.
  assert (registrations (main sdk argv env toolRegistry).2 = registrations tr1) as ->.
  { rewrite (main_past_setup _ _ _ _ _ _ Hlist Hkey Hserver Hsetup).
    destruct (httpFailure sdk env) as [e1|]; [destruct (stdioFailure sdk) as [e2|]|];
      cbv zeta; try destruct (server_connect sdk _);
      unfold snd; rewrite registrations_app; simpl; apply app_nil_r. }
  apply setupTools_normal in Hsetup as [_ ->].
  rewrite registrations_app, registrations_registered. simpl. f_equal.
  unfold selected. apply List.filter_ext. intros [id tool]. simpl.
  unfold shouldRegister.
  destruct (decide (argv_tools argv = "")) as [Heq|Hne].
  - apply specifiedTools_size in Heq. rewrite Heq.
    destruct (decide (0 < 0)); [lia|reflexivity].
  - destruct (decide (0 < size (specifiedTools argv))) as [_|Hsize].
    + apply bool_decide_ext. rewrite specifiedTools_elem_of. tauto.
    + exfalso. apply Hsize. destruct (size (specifiedTools argv)) eqn:Hs; [|lia].
      apply specifiedTools_size in Hs. contradiction.
Qed.

End FurtherEnablement.

(** ** Further properties of the port *)

Lemma digit_pretty_N_char (d : N) :
  (d < 10)%N -> Js.digit (pretty_N_char d) = Some (Z.of_N d).
Proof.
  intros Hd.
  assert (d = 0 \/ d = 1 \/ d = 2 \/ d = 3 \/ d = 4 \/ d = 5 \/ d = 6 \/ d = 7
          \/ d = 8 \/ d = 9)%N as Hcases by lia.
  repeat (destruct Hcases as [->|Hcases]; [reflexivity|]). subst d. reflexivity.
Qed.

Lemma digits_stop acc rest : startsWithDigit rest = false -> Js.digits acc rest = acc.
Proof.
  destruct rest as [|c rest]; [reflexivity|]. simpl.
  destruct (Js.digit c); [discriminate|reflexivity].
Qed.

Lemma digits_pretty_N_go (x : N) :
  (0 < x)%N ->
  forall s rest,
    Js.digits None (pretty_N_go x s +:+ rest) = Js.digits (Some (Z.of_N x)) (s +:+ rest).
Proof.
  induction (N.lt_wf_0 x) as [x _ IH]. intros Hx s rest.
  rewrite (pretty_N_go_step x s Hx).
  pose proof (N.div_mod x 10 ltac:(lia)) as Hdiv.
  pose proof (N.mod_lt x 10 ltac:(lia)) as Hmod.
  destruct (decide (x `div` 10 = 0)%N) as [Hq|Hq].
  - rewrite Hq, pretty_N_go_0, append_cons. simpl.
    rewrite (digit_pretty_N_char _ Hmod). simpl. f_equal. f_equal.
    rewrite Hq in Hdiv. generalize dependent (x `mod` 10)%N. intros; lia.
  - rewrite IH; [|apply N.div_lt; lia|apply N.neq_0_lt_0, Hq].
    rewrite append_cons. simpl. rewrite (digit_pretty_N_char _ Hmod). simpl.
    f_equal. f_equal. clear IH Hq.
    generalize dependent (x `mod` 10)%N. generalize (x `div` 10)%N. intros; lia.
Qed.

Lemma pretty_N_go_head (x : N) :
  (0 < x)%N ->
  forall s, exists d r, pretty_N_go x s = String (pretty_N_char d) r.
Proof.
  induction (N.lt_wf_0 x) as [x _ IH]. intros Hx s.
  rewrite (pretty_N_go_step x s Hx).
  destruct (decide (x `div` 10 = 0)%N) as [Hq|Hq].
  - rewrite Hq, pretty_N_go_0. eauto.
  - apply IH; [apply N.div_lt; lia|apply N.neq_0_lt_0, Hq].
Qed.

Lemma parseInt10_digit_head (d : N) (r : string) :
  Js.parseInt10 (String (pretty_N_char d) r)
  = match Js.digits None (String (pretty_N_char d) r) with
    | Some n => Js.Int n
    | None => Js.NaN
    end.
Proof.
  unfold pretty_N_char. destruct d as [|p]; [reflexivity|].
  do 4 (try destruct p as [p|p|]); reflexivity.
Qed.

Lemma parseInt10_unsigned (c : ascii) (r : string) :
  Js.isWhiteSpace c = false -> c <> "-"%char -> c <> "+"%char ->
  Js.parseInt10 (String c r)
  = match Js.digits None (String c r) with
    | Some n => Js.Int n
    | None => Js.NaN
    end.
Proof.
  intros Hws Hminus Hplus.
  destruct c as [[] [] [] [] [] [] [] []];
    first [ reflexivity
          | exfalso; apply Hminus; reflexivity
          | exfalso; apply Hplus; reflexivity
          | vm_compute in Hws; discriminate ].
Qed.

Lemma parseInt10_whiteSpace_l w s :
  onlyWhiteSpace w = true -> Js.parseInt10 (w +:+ s) = Js.parseInt10 s.
Proof.
  intros Hw. unfold Js.parseInt10.
  assert (Js.trimStart (w +:+ s) = Js.trimStart s) as ->; [|reflexivity].
  induction w as [|c w IH]; [reflexivity|].
  simpl in Hw. apply andb_prop in Hw as [Hc Hw]. rewrite append_cons. simpl.
  rewrite Hc. auto.
Qed.

Lemma parseInt10_pretty_positive (p : positive) (rest : string) :
  startsWithDigit rest = false ->
  Js.parseInt10 (pretty_N_go (N.pos p) "" +:+ rest) = Js.Int (Z.pos p)
  /\ Js.digits None (pretty_N_go (N.pos p) "" +:+ rest) = Some (Z.pos p)
  /\ pretty_N_go (N.pos p) "" <> "".
Proof.
  intros Hrest.
  assert (Js.digits None (pretty_N_go (N.pos p) "" +:+ rest) = Some (Z.pos p)) as Hdigits.
  { rewrite digits_pretty_N_go by lia. rewrite append_nil_l.
    apply (digits_stop _ _ Hrest). }
  destruct (pretty_N_go_head (N.pos p) ltac:(lia) "") as (d & r & Hhead).
  repeat split; [|exact Hdigits|rewrite Hhead; discriminate].
  rewrite Hhead, append_cons in Hdigits |- *.
  rewrite parseInt10_digit_head, Hdigits. reflexivity.
Qed.

Lemma parseInt10_pretty (z : Z) (rest : string) :
  startsWithDigit rest = false ->
  Js.parseInt10 (pretty z +:+ rest) = Js.Int z /\ pretty z <> "".
Proof.
  intros Hrest. destruct z as [|p|p].
  - split; [|discriminate].
    change (pretty 0%Z +:+ rest) with (String "0" rest).
    unfold Js.parseInt10. simpl. rewrite (digits_stop _ _ Hrest). reflexivity.
  - change (pretty (Z.pos p)) with (pretty_N_go (N.pos p) "").
    destruct (parseInt10_pretty_positive p rest Hrest) as (H & _ & Hne). auto.
  - change (pretty (Z.neg p)) with ("-" +:+ pretty_N_go (N.pos p) "").
    split; [|discriminate].
    change (("-" +:+ pretty_N_go (N.pos p) "") +:+ rest)
      with (String "-" (pretty_N_go (N.pos p) "" +:+ rest)).
    destruct (parseInt10_pretty_positive p rest Hrest) as (_ & Hdigits & _).
    unfold Js.parseInt10. simpl. rewrite Hdigits. reflexivity.
Qed.

(** X17: a [PORT] that holds an integer in decimal (of a size a double
    holds exactly), possibly after white space and before anything that
    does not start with a digit, selects exactly this integer.  There is
    no range check: a negative integer or one above 65535 is selected as
    it is. *)
Theorem X17_port_decimal (z : Z) (w rest : string) (key : option string) :
  (Z.abs z <= 2 ^ 53)%Z ->
  onlyWhiteSpace w = true ->
  startsWithDigit rest = false ->
  selectPort {| EXA_API_KEY := key; PORT := Some (w +:+ pretty z +:+ rest) |} = Js.Int z.
Proof.
  intros _ Hw Hrest. destruct (parseInt10_pretty z rest Hrest) as [Hparse Hne].
  unfold selectPort. simpl.
  assert (Js.truthy (w +:+ pretty z +:+ rest) = true) as ->.
  { apply truthy_true, append_nonempty_r, append_nonempty_l, Hne. }
  rewrite (parseInt10_whiteSpace_l _ _ Hw). exact Hparse.
Qed.

(** X18: a [PORT] that is not empty and in which [parseInt] finds no
    digit does not fall back to the default: the port selected is NaN.
    This is the case of every string that starts, after white space, with
    a character other than a digit or a sign. *)
Theorem X18_port_not_a_number (c : ascii) (w rest : string) (key : option string) :
  onlyWhiteSpace w = true ->
  Js.isWhiteSpace c = false ->
  Js.digit c = None -> c <> "-"%char -> c <> "+"%char ->
  selectPort {| EXA_API_KEY := key; PORT := Some (w +:+ String c rest) |} = Js.NaN.
Proof.
  intros Hw Hc Hdigit Hminus Hplus. unfold selectPort. simpl.
  assert (Js.truthy (w +:+ String c rest) = true) as ->.
  { apply truthy_true, append_nonempty_r. discriminate. }
  rewrite (parseInt10_whiteSpace_l _ _ Hw), (parseInt10_unsigned _ _ Hc Hminus Hplus).
  simpl. rewrite Hdigit. reflexivity.
Qed.

(** ** The further properties at the sample inputs *)

Lemma X6_witness :
  (main sdkStdioOnly (argvOf " twitter_search , zzz" false) (envOf (Some "key") None)
     sampleRegistry).2 !! 2
  = Some (ServerTool (registrationOf (sampleTool "twitter_search" "Search tweets" false)))
  /\ (main sdkStdioOnly (argvOf " twitter_search , zzz" false) (envOf (Some "key") None)
        sampleRegistry).2 !! 5
     = Some (NewTransport StdioServerTransport)
  /\ 2 < 5.
Proof.
  assert ((main sdkStdioOnly (argvOf " twitter_search , zzz" false)
             (envOf (Some "key") None) sampleRegistry).2 !! 2
          = Some (ServerTool (registrationOf
                                (sampleTool "twitter_search" "Search tweets" false))))
    as Hi by (vm_compute; reflexivity).
  assert ((main sdkStdioOnly (argvOf " twitter_search , zzz" false)
             (envOf (Some "key") None) sampleRegistry).2 !! 5
          = Some (NewTransport StdioServerTransport))
    as Hj by (vm_compute; reflexivity).
  split; [exact Hi|]. split; [exact Hj|].
  apply (X6_registration_precedes_transport _ _ _ _ _ _ _ _ Hi Hj). reflexivity.
Defined.

Lemma X7_witness :
  setupTools sdkHttp sampleRegistry (specifiedTools (argvOf "" false)) started
  = (Normal ["web_search"],
     started ++ [ServerTool (registrationOf (sampleTool "web_search" "Search the web" true))])
  /\ length (registrations
               (main sdkHttp (argvOf "" false) (envOf (Some "key") None) sampleRegistry).2)
     = 1.
Proof.
  assert (setupTools sdkHttp sampleRegistry (specifiedTools (argvOf "" false)) started
          = (Normal ["web_search"],
             started ++ [ServerTool (registrationOf
                                       (sampleTool "web_search" "Search the web" true))]))
    as Hsetup by (vm_compute; reflexivity).
  split; [exact Hsetup|].
  apply (X7_logged_count_is_session_size sdkHttp (argvOf "" false)
           (envOf (Some "key") None) sampleRegistry _ _ eq_refl eq_refl eq_refl Hsetup).
Defined.

Lemma X8_witness :
  (main sdkHttp (argvOf "" false) (envOf (Some "key") None) sampleRegistry).1 = Serving
  /\ exists transport,
       connected (main sdkHttp (argvOf "" false) (envOf (Some "key") None)
                    sampleRegistry).2 = [transport]
       /\ last (main sdkHttp (argvOf "" false) (envOf (Some "key") None)
                  sampleRegistry).2 = Some (logRunning (isHttp transport)).
Proof.
  assert ((main sdkHttp (argvOf "" false) (envOf (Some "key") None) sampleRegistry).1
          = Serving) as Hserving by (vm_compute; reflexivity).
  split; [exact Hserving|].
  apply (X8_running_line_names_transport _ _ _ _ Hserving).
Defined.

Lemma X9_witness :
  httpFailure sdkHttp (envOf (Some "key") None) = None
  /\ main (withStdio sdkHttp (Some (newError "no stdio")) (Some (newError "no stdin")))
       (argvOf "" false) (envOf (Some "key") None) sampleRegistry
     = main sdkHttp (argvOf "" false) (envOf (Some "key") None) sampleRegistry.
Proof.
  split; [reflexivity|].
  apply (X9_stdio_untouched_when_http_works sdkHttp). reflexivity.
Defined.

Lemma X10_witness :
  argv_list_tools (argvOf "" false) = false
  /\ missingApiKey (envOf (Some "key") None) = false
  /\ new_McpServer sdkNoSession = Some (newError "Invalid server options")
  /\ main sdkNoSession (argvOf "" false) (envOf (Some "key") None) sampleRegistry
     = (Exited 1, [logFatal (newError "Invalid server options")]).
Proof.
  repeat (split; [reflexivity|]).
  apply (X10_session_failure_is_fatal sdkNoSession); reflexivity.
Defined.


Lemma X12_witness :
  "web_search" <> "" /\ "twitter_search" <> ""
  /\ specifiedTools
       {| argv_tools := "web_search" +:+ "," +:+ "twitter_search";
          argv_list_tools := false |}
     = specifiedTools {| argv_tools := "web_search"; argv_list_tools := false |}
       ∪ specifiedTools {| argv_tools := "twitter_search"; argv_list_tools := false |}.
Proof.
  assert ("web_search" <> "") as Ha by discriminate.
  assert ("twitter_search" <> "") as Hb by discriminate.
  split; [exact Ha|]. split; [exact Hb|].
  apply (X12_tools_string_union "web_search" "twitter_search" false false false Ha Hb).
Defined.

Lemma X13_witness :
  "web_search" <> ""
  /\ onlyWhiteSpace " " = true /\ onlyWhiteSpace "  " = true
  /\ specifiedTools
       {| argv_tools := " " +:+ "web_search" +:+ "  "; argv_list_tools := false |}
     = specifiedTools {| argv_tools := "web_search"; argv_list_tools := false |}.
Proof.
  assert ("web_search" <> "") as Ha by discriminate.
  split; [exact Ha|]. split; [reflexivity|]. split; [reflexivity|].
  apply (X13_tools_string_padding "web_search" "" " " "  " false Ha eq_refl eq_refl).
Defined.

Lemma X14_witness :
  shouldRegister (specifiedTools (argvOf "web search, web_search " false)) " web_search"
    (sampleTool "web_search" "Search the web" true)
  = false.
Proof.
  apply (X14_requested_ids_are_trimmed (argvOf "web search, web_search " false));
    [discriminate|].
  left. discriminate.
Defined.

Lemma X15_witness :
  0 < size (({[ "web_search"; "zzz" ]} : gset string)
            ∩ list_to_set (map fst sampleRegistry))
  /\ setupTools sdkHttp sampleRegistry
       ({[ "web_search"; "zzz" ]} ∩ list_to_set (map fst sampleRegistry)) []
     = setupTools sdkHttp sampleRegistry {[ "web_search"; "zzz" ]} [].
Proof.
  assert (0 < size (({[ "web_search"; "zzz" ]} : gset string)
                    ∩ list_to_set (map fst sampleRegistry))) as Hsize
    by (vm_compute; lia).
  split; [exact Hsize|].
  apply (X15_requested_set_restricted_to_keys sdkHttp sampleRegistry _ [] Hsize).
Defined.

Lemma X16_witness :
  setupTools sdkHttp sampleRegistry
    (specifiedTools (argvOf "twitter_search, web_search" false)) started
  = (Normal ["web_search"; "twitter_search"],
     started
     ++ [ServerTool (registrationOf (sampleTool "web_search" "Search the web" true));
         ServerTool (registrationOf (sampleTool "twitter_search" "Search tweets" false))])
  /\ registrations
       (main sdkHttp (argvOf "twitter_search, web_search" false) (envOf (Some "key") None)
          sampleRegistry).2
     = [registrationOf (sampleTool "web_search" "Search the web" true);
        registrationOf (sampleTool "twitter_search" "Search tweets" false)].
Proof.
  assert (setupTools sdkHttp sampleRegistry
            (specifiedTools (argvOf "twitter_search, web_search" false)) started
          = (Normal ["web_search"; "twitter_search"],
             started
             ++ [ServerTool (registrationOf
                               (sampleTool "web_search" "Search the web" true));
                 ServerTool (registrationOf
                               (sampleTool "twitter_search" "Search tweets" false))]))
    as Hsetup by (vm_compute; reflexivity).
  split; [exact Hsetup|].
  rewrite (X16_session_tools_from_command_line sdkHttp
             (argvOf "twitter_search, web_search" false) (envOf (Some "key") None)
             sampleRegistry _ _ eq_refl eq_refl eq_refl Hsetup).
  vm_compute. reflexivity.
Defined.

Lemma X17_witness :
  (Z.abs 3000 <= 2 ^ 53)%Z
  /\ onlyWhiteSpace " " = true /\ startsWithDigit "px" = false
  /\ selectPort {| EXA_API_KEY := None; PORT := Some (" " +:+ pretty 3000%Z +:+ "px") |}
     = Js.Int 3000.
Proof.
  assert (Z.abs 3000 <= 2 ^ 53)%Z as Hbound by (vm_compute; discriminate).
  split; [exact Hbound|]. split; [reflexivity|]. split; [reflexivity|].
  apply (X17_port_decimal 3000 " " "px" None Hbound); reflexivity.
Defined.

Lemma X18_witness :
  selectPort {| EXA_API_KEY := None; PORT := Some ("" +:+ String "a" "bc") |} = Js.NaN.
Proof.
  apply (X18_port_not_a_number "a" "" "bc" None);
    [reflexivity|reflexivity|reflexivity|discriminate|discriminate].
Defined.

(** ** From the log back to the command line, and the defaults made explicit *)

Lemma split_noComma_whole s : noComma s = true -> Js.split "," s = [s].
Proof.
  induction s as [|c s IH]; [reflexivity|]. simpl.
  intros [Hc Hs]%andb_prop. apply negb_true_iff in Hc. rewrite Hc, (IH Hs). reflexivity.
Qed.

Lemma join_cons_cons sep a b l :
  Js.join sep (a :: b :: l) = a +:+ sep +:+ Js.join sep (b :: l).
Proof. reflexivity. Qed.

Lemma split_join (ids : list string) :
  ids <> [] ->
  Forall (fun id => Js.trim id = id /\ noComma id = true) ids ->
  map Js.trim (Js.split "," (Js.join ", " ids)) = ids.
Proof.
  intros Hne Hall. induction Hall as [|a l [Ha Hc] Hl IH]; [congruence|].
  destruct l as [|b l].
  - simpl. rewrite (split_noComma_whole _ Hc). simpl. rewrite Ha. reflexivity.
  - rewrite join_cons_cons.
    change (", " +:+ Js.join ", " (b :: l)) with (String "," (" " +:+ Js.join ", " (b :: l))).
    rewrite split_app_sep, (split_noComma_whole _ Hc), (split_whiteSpace_l " ") by reflexivity.
    pose proof (split_nonempty "," (Js.join ", " (b :: l))) as Hsplit.
    specialize (IH ltac:(discriminate)).
    destruct (Js.split "," (Js.join ", " (b :: l))) as [|p ps]; [congruence|].
    simpl in *. rewrite Ha, (trim_whiteSpace_l " " p) by reflexivity.
    rewrite IH. reflexivity.
Qed.

(** X19: the list of tools that [run] writes to the log, joined with a
    comma and a space, can be given back as [--tools]: it parses to the
    set of the listed ids, provided the ids are trimmed and hold no
    comma, and the list is not empty nor the empty id alone. *)
Theorem X19_logged_list_parses_back (ids : list string) (l : bool) :
  ids <> [] -> ids <> [""] ->
  Forall (fun id => Js.trim id = id /\ noComma id = true) ids ->
  specifiedTools {| argv_tools := Js.join ", " ids; argv_list_tools := l |}
  = list_to_set ids.
Proof.
  intros Hne Hne' Hall.
  assert (Js.join ", " ids <> "") as Hjoin.
  { destruct ids as [|a [|b ids]]; [congruence| |].
    - simpl. congruence.
    - rewrite join_cons_cons. destruct a; discriminate. }
  rewrite (specifiedTools_nonempty
             {| argv_tools := Js.join ", " ids; argv_list_tools := l |} Hjoin).
  simpl.
  rewrite (split_join _ Hne Hall). reflexivity.
Qed.

Lemma X19_witness :
  ["web_search"; "twitter_search"] <> []
  /\ ["web_search"; "twitter_search"] <> [""]
  /\ specifiedTools
       {| argv_tools := Js.join ", " ["web_search"; "twitter_search"];
          argv_list_tools := false |}
     = list_to_set ["web_search"; "twitter_search"].
Proof.
  assert (["web_search"; "twitter_search"] <> []) as Hne by discriminate.
  assert (["web_search"; "twitter_search"] <> [""]) as Hne' by discriminate.
  split; [exact Hne|]. split; [exact Hne'|].
  apply (X19_logged_list_parses_back _ false Hne Hne').
  repeat constructor.
Defined.

Section Defaults.

Context {Schema Handler : Type}.

Local Abbreviation Tool := (Tool Schema Handler).
Local Abbreviation Registry := (Registry Schema Handler).
Local Abbreviation Trace := (Trace Schema Handler).
Local Abbreviation Sdk := (Sdk Schema Handler).

Lemma NoDup_keys_functional (toolRegistry : Registry) id (t1 t2 : Tool) :
  NoDup (map fst toolRegistry) ->
  (id, t1) ∈ toolRegistry -> (id, t2) ∈ toolRegistry -> t1 = t2.
Proof.
  induction toolRegistry as [|[id' t] l IH]; intros Hnodup H1 H2; [inversion H1|].
  simpl in Hnodup. apply NoDup_cons in Hnodup as [Hnotin Hnodup].
  assert (forall t', (id', t') ∈ l -> False) as Hfresh.
  { intros t' Hin. apply Hnotin, list_elem_of_fmap. exists (id', t'). auto. }
  apply elem_of_cons in H1 as [H1|H1]; apply elem_of_cons in H2 as [H2|H2].
  - congruence.
  - injection H1 as -> _. destruct (Hfresh _ H2).
  - injection H2 as -> _. destruct (Hfresh _ H1).
  - apply (IH Hnodup H1 H2).
Qed.

(** X20: requesting exactly the ids that are enabled by default is the
    same as requesting nothing, in a registry whose keys are distinct:
    [setupTools] registers the same tools and returns the same ids. *)
Theorem X20_explicit_defaults (sdk : Sdk) (toolRegistry : Registry) (tr : Trace) :
  NoDup (map fst toolRegistry) ->
  setupTools sdk toolRegistry
    (list_to_set (map fst (List.filter (fun entry => enabled entry.2) toolRegistry))) tr
  = setupTools sdk toolRegistry ∅ tr.
Proof.
  intros Hnodup.
  set (defaults := list_to_set
                     (map fst (List.filter (fun entry => enabled entry.2) toolRegistry))
                   : gset string).
  destruct (size defaults) as [|n] eqn:Hsize.
  { apply size_empty_inv, leibniz_equiv in Hsize. rewrite Hsize. reflexivity. }
  rewrite !setupTools_registerEach. f_equal.
  rewrite (selected_requested _ defaults) by lia.
  rewrite (selected_defaults _ ∅) by reflexivity.
  apply List.filter_ext_in. intros [id tool] Hin. simpl.
  apply list_elem_of_In in Hin.
  destruct (enabled tool) eqn:Henabled.
  - apply bool_decide_eq_true. unfold defaults.
    apply elem_of_list_to_set, list_elem_of_fmap. exists (id, tool).
    split; [reflexivity|]. apply list_elem_of_In, List.filter_In.
    split; [apply list_elem_of_In, Hin|exact Henabled].
  - apply bool_decide_eq_false. unfold defaults.
    rewrite elem_of_list_to_set, list_elem_of_fmap.
    intros ([id' tool'] & Hid & Hin'). simpl in Hid. subst id'.
    apply list_elem_of_In, List.filter_In in Hin' as [Hin' Henabled'].
    apply list_elem_of_In in Hin'. simpl in Henabled'.
    rewrite (NoDup_keys_functional _ _ _ _ Hnodup Hin Hin') in Henabled. congruence.
Qed.

End Defaults.

Lemma X20_witness :
  NoDup (map fst sampleRegistry)
  /\ setupTools sdkHttp sampleRegistry
       (list_to_set (map fst (List.filter (fun entry => enabled entry.2) sampleRegistry))) []
     = setupTools sdkHttp sampleRegistry ∅ [].
Proof.
  assert (NoDup (map fst sampleRegistry)) as Hnodup.
  { apply (bool_decide_unpack _). vm_compute. exact I. }
  split; [exact Hnodup|].
  apply (X20_explicit_defaults sdkHttp sampleRegistry [] Hnodup).
Defined.
